(** * SteelSeries headset HID driver: connection and battery tracking

    A shallow embedding of [drivers/hid/hid-steelseries-headset.c].

    The driver's functions are written as pure functions over the driver
    state [steelseries_headset].  Every call the driver makes into the
    rest of the kernel is recorded, in program order, in a list of
    [event]s; whatever the rest of the kernel answers (an allocation that
    succeeds or not, the value a transfer returns) is an input of the
    function.  C integers are [Z]; a conversion that the C code performs
    implicitly is written out ([to_u8], [to_size_t]). *)

From Stdlib Require Import ZArith List Bool String Lia.
From Stdlib Require Import Strings.Byte.
Import ListNotations.
Open Scope Z_scope.

(** ** Constants and enumerations of the kernel headers *)

Definition ENOMEM : Z := 12.
Definition ENODATA : Z := 61.

Definition INT_MIN : Z := - 2 ^ 31.
Definition INT_MAX : Z := 2 ^ 31 - 1.

Definition BIT (n : Z) : Z := Z.shiftl 1 n.

Inductive hid_report_type :=
| HID_INPUT_REPORT
| HID_OUTPUT_REPORT
| HID_FEATURE_REPORT.

Inductive hid_class_request :=
| HID_REQ_GET_REPORT
| HID_REQ_GET_IDLE
| HID_REQ_GET_PROTOCOL
| HID_REQ_SET_REPORT
| HID_REQ_SET_IDLE
| HID_REQ_SET_PROTOCOL.

Inductive usb_wireless_status :=
| USB_WIRELESS_STATUS_NA
| USB_WIRELESS_STATUS_DISCONNECTED
| USB_WIRELESS_STATUS_CONNECTED.

(** A pointer returned by a registration function: a valid object or
    [ERR_PTR (-errno)]; [NULL] is the zeroed field of a fresh structure. *)
Inductive power_supply_ptr :=
| NULL
| registered
| ERR_PTR (err : Z).

Definition IS_ERR (p : power_supply_ptr) : bool :=
  match p with ERR_PTR _ => true | _ => false end.

Definition PTR_ERR (p : power_supply_ptr) : Z :=
  match p with ERR_PTR e => e | _ => 0 end.

(** ** Calls into the rest of the kernel *)

Inductive printk_arg :=
| arg_int (n : Z)
| arg_str (s : string).

Inductive event :=
| ev_hid_err (fmt : string) (args : list printk_arg)
| ev_hid_dbg (fmt : string) (args : list printk_arg)
| ev_kmemdup (src : list Z) (len : Z)
| ev_kfree
| ev_hid_hw_raw_request (reportnum : Z) (buf : list Z) (len : Z)
    (rtype : hid_report_type) (reqtype : hid_class_request)
| ev_usb_set_wireless_status (status : usb_wireless_status)
| ev_power_supply_changed
| ev_spin_lock_irqsave
| ev_spin_unlock_irqrestore
| ev_schedule_delayed_work (delay : Z)
| ev_cancel_delayed_work_sync
| ev_devm_kzalloc
| ev_hid_parse
| ev_hid_hw_start
| ev_hid_hw_stop
| ev_devm_kasprintf (fmt : string) (n : Z)
| ev_devm_power_supply_register
| ev_power_supply_powers
| ev_INIT_DELAYED_WORK.

(** The two notifications of the driver's collaborators. *)
Definition is_wireless_status (e : event) : bool :=
  match e with ev_usb_set_wireless_status _ => true | _ => false end.

Definition is_power_supply_changed (e : event) : bool :=
  match e with ev_power_supply_changed => true | _ => false end.

Definition is_notification (e : event) : bool :=
  is_wireless_status e || is_power_supply_changed e.

Definition is_raw_request (e : event) : bool :=
  match e with ev_hid_hw_raw_request _ _ _ _ _ => true | _ => false end.

Definition is_schedule (e : event) : bool :=
  match e with ev_schedule_delayed_work _ => true | _ => false end.

Definition is_lock (e : event) : bool :=
  match e with ev_spin_lock_irqsave => true | _ => false end.

(** ** The driver state *)

(** [struct delayed_work]: the expiry times (in jiffies) of the armed
    instances of the work. *)
Definition delayed_work := list Z.

Definition STEELSERIES_ARCTIS_1 : Z := BIT 0.

Record steelseries_headset := mk_headset {
  quirks : Z;                       (* unsigned long *)
  battery_work : delayed_work;
  removed : bool;
  battery_desc_name : option Z;     (* steelseries_headset_battery_<n> *)
  battery : power_supply_ptr;
  battery_capacity : Z;             (* uint8_t *)
  headset_connected : bool
}.

Definition set_battery_work (w : delayed_work) (h : steelseries_headset) :=
  mk_headset (quirks h) w (removed h) (battery_desc_name h) (battery h)
             (battery_capacity h) (headset_connected h).

Definition set_removed (b : bool) (h : steelseries_headset) :=
  mk_headset (quirks h) (battery_work h) b (battery_desc_name h) (battery h)
             (battery_capacity h) (headset_connected h).

Definition set_battery_desc_name (n : option Z) (h : steelseries_headset) :=
  mk_headset (quirks h) (battery_work h) (removed h) n (battery h)
             (battery_capacity h) (headset_connected h).

Definition set_battery (p : power_supply_ptr) (h : steelseries_headset) :=
  mk_headset (quirks h) (battery_work h) (removed h) (battery_desc_name h) p
             (battery_capacity h) (headset_connected h).

Definition set_battery_capacity (c : Z) (h : steelseries_headset) :=
  mk_headset (quirks h) (battery_work h) (removed h) (battery_desc_name h)
             (battery h) c (headset_connected h).

Definition set_headset_connected (b : bool) (h : steelseries_headset) :=
  mk_headset (quirks h) (battery_work h) (removed h) (battery_desc_name h)
             (battery h) (battery_capacity h) b.

(** [headset->quirks & flag], read as a C condition. *)
Definition has_quirk (h : steelseries_headset) (flag : Z) : bool :=
  negb (Z.land (quirks h) flag =? 0).

(** Conversion to [uint8_t]. *)
Definition to_u8 (x : Z) : Z := x mod 2 ^ 8.

(** The value of a byte of a report buffer. *)
Definition u8 (b : byte) : Z := Z.of_N (Byte.to_N b).

Definition STEELSERIES_HEADSET_BATTERY_TIMEOUT_MS : Z := 3000.
Definition ARCTIS_1_BATTERY_RESPONSE_LEN : Z := 8.

(** What the rest of the kernel answers during one battery query. *)
Record usb_io := mk_usb_io {
  kmemdup_ok : bool;       (* kmemdup returned a buffer *)
  raw_request_ret : Z      (* the int that hid_hw_raw_request returns *)
}.

(** ** The power-supply properties *)

(** [enum power_supply_property]: the four properties the driver names, and
    all the others of the header. *)
Inductive power_supply_property :=
| POWER_SUPPLY_PROP_STATUS
| POWER_SUPPLY_PROP_PRESENT
| POWER_SUPPLY_PROP_SCOPE
| POWER_SUPPLY_PROP_CAPACITY
| POWER_SUPPLY_PROP_other (n : nat).

Definition EINVAL : Z := 22.

Section PowerSupplyValues.

(** The values of the enumerators of [power_supply.h] that the driver
    stores in [val->intval]. *)
Variable POWER_SUPPLY_STATUS_UNKNOWN : Z.
Variable POWER_SUPPLY_STATUS_DISCHARGING : Z.
Variable POWER_SUPPLY_SCOPE_DEVICE : Z.

(** Returns the [int] of the C function and [val->intval] as the call
    leaves it. *)
Definition steelseries_headset_battery_get_property
  (headset : steelseries_headset) (psp : power_supply_property) (val : Z)
  : Z * Z :=
  match psp with
  | POWER_SUPPLY_PROP_PRESENT => (0, 1)
  | POWER_SUPPLY_PROP_STATUS =>
      (0, if headset_connected headset
          then POWER_SUPPLY_STATUS_DISCHARGING
          else POWER_SUPPLY_STATUS_UNKNOWN)
  | POWER_SUPPLY_PROP_SCOPE => (0, POWER_SUPPLY_SCOPE_DEVICE)
  | POWER_SUPPLY_PROP_CAPACITY => (0, battery_capacity headset)
  | POWER_SUPPLY_PROP_other _ => (- EINVAL, val)
  end.

End PowerSupplyValues.

Definition steelseries_headset_battery_props : list power_supply_property :=
  [POWER_SUPPLY_PROP_PRESENT;
   POWER_SUPPLY_PROP_STATUS;
   POWER_SUPPLY_PROP_SCOPE;
   POWER_SUPPLY_PROP_CAPACITY].

Section Driver.

(** The width of [unsigned long], hence of [size_t]. *)
Variable BITS_PER_LONG : Z.

(** The tick length is a build-time choice of the kernel. *)
Variable msecs_to_jiffies : Z -> Z.

(** Conversion of an [int] to [size_t], as the usual arithmetic conversions
    do when an [int] meets a [sizeof]. *)
Definition to_size_t (x : Z) : Z := x mod 2 ^ BITS_PER_LONG.

(** ** Battery query *)

Definition battery_request : list Z := [0x06; 0x12].

Definition sizeof_battery_request : Z := Z.of_nat (List.length battery_request).

Definition steelseries_headset_arctis_1_fetch_battery (io : usb_io)
  : Z * list event :=
  if negb (kmemdup_ok io) then
    (- ENOMEM, [ev_kmemdup battery_request sizeof_battery_request])
  else
    let write_buf := battery_request in
    let ret := raw_request_ret io in
    let calls :=
      [ev_kmemdup battery_request sizeof_battery_request;
       ev_hid_hw_raw_request (nth 0 battery_request 0) write_buf
         sizeof_battery_request HID_OUTPUT_REPORT HID_REQ_SET_REPORT] in
    if to_size_t ret <? sizeof_battery_request then
      (- ENODATA,
       calls ++ [ev_hid_err "hid_hw_raw_request() failed with %d\n" [arg_int ret];
                 ev_kfree])
    else
      (ret, calls ++ [ev_kfree]).

Definition steelseries_headset_fetch_battery (headset : steelseries_headset)
  (io : usb_io) : list event :=
  let '(ret, evs) :=
    if has_quirk headset STEELSERIES_ARCTIS_1
    then steelseries_headset_arctis_1_fetch_battery io
    else (0, []) in
  if ret <? 0
  then evs ++ [ev_hid_dbg "Battery query failed (err: %d)\n" [arg_int ret]]
  else evs.

Definition steelseries_headset_battery_timer_tick
  (headset : steelseries_headset) (io : usb_io) : list event :=
  steelseries_headset_fetch_battery headset io.

(** ** The deferred work *)

(** Modelled from the spec: [schedule_delayed_work] (kernel/workqueue.c) is
    not among the sources of the driver.  Arming makes the task fire [delay]
    after now and replaces any previously armed instance of it. *)
Definition schedule_delayed_work (jiffies : Z) (dwork : delayed_work)
  (delay : Z) : delayed_work :=
  [jiffies + delay].

(** Modelled from the spec: [cancel_delayed_work_sync] (kernel/workqueue.c)
    is not among the sources of the driver.  It cancels any armed instance
    and returns once no instance of the callback is running. *)
Definition cancel_delayed_work_sync (dwork : delayed_work) : delayed_work :=
  [].

(** ** Inbound reports *)

(** Lines 204-220 of the handler: the values that reach the comparisons
    of line 222, or the early return of line 212. *)
Inductive decoded :=
| ignored
| candidate (connected : bool) (capacity : Z).

(** [None] is a read past the end of [read_buf]. *)
Definition raw_event_decode (headset : steelseries_headset)
  (read_buf : list byte) (size : Z) : option decoded :=
  let capacity := battery_capacity headset in
  let connected := headset_connected headset in
  if has_quirk headset STEELSERIES_ARCTIS_1 then
    if size <? 8 then Some ignored
    else
      match nth_error read_buf 2 with
      | None => None
      | Some b2 =>
          if u8 b2 =? 0x01 then Some (candidate false 100)
          else
            match nth_error read_buf 3 with
            | None => None
            | Some b3 => Some (candidate true (u8 b3))
            end
      end
  else Some (candidate connected capacity).

Definition connected_str (connected : bool) : printk_arg :=
  arg_str (if connected then EmptyString else "not ").

(** Lines 222-244. *)
Definition raw_event_update (headset : steelseries_headset)
  (connected : bool) (capacity : Z) : steelseries_headset * list event :=
  let '(headset, evs1) :=
    if negb (Bool.eqb connected (headset_connected headset)) then
      (set_headset_connected connected headset,
       [ev_hid_dbg "Connected status changed from %sconnected to %sconnected\n"
          [connected_str (headset_connected headset); connected_str connected];
        ev_usb_set_wireless_status
          (if connected then USB_WIRELESS_STATUS_CONNECTED
           else USB_WIRELESS_STATUS_DISCONNECTED)])
    else (headset, []) in
  let '(headset, evs2) :=
    if negb (capacity =? battery_capacity headset) then
      (set_battery_capacity (to_u8 capacity) headset,
       [ev_hid_dbg "Battery capacity changed from %d%% to %d%%\n"
          [arg_int (battery_capacity headset); arg_int capacity];
        ev_power_supply_changed])
    else (headset, []) in
  (headset, evs1 ++ evs2).

(** Lines 246-250. *)
Definition raw_event_rearm (jiffies : Z) (headset : steelseries_headset)
  : steelseries_headset * list event :=
  if negb (removed headset) then
    (set_battery_work
       (schedule_delayed_work jiffies (battery_work headset)
          (msecs_to_jiffies STEELSERIES_HEADSET_BATTERY_TIMEOUT_MS))
       headset,
     [ev_spin_lock_irqsave;
      ev_schedule_delayed_work
        (msecs_to_jiffies STEELSERIES_HEADSET_BATTERY_TIMEOUT_MS);
      ev_spin_unlock_irqrestore])
  else (headset, [ev_spin_lock_irqsave; ev_spin_unlock_irqrestore]).

Definition raw_event_dbg (headset : steelseries_headset) (size : Z)
  : list event :=
  if has_quirk headset STEELSERIES_ARCTIS_1 then
    [ev_hid_dbg "Parsing raw event for Arctis 1 headset (len: %d)\n"
       [arg_int size]]
  else [].

Definition steelseries_headset_raw_event (jiffies : Z)
  (headset : steelseries_headset) (read_buf : list byte) (size : Z)
  : option (Z * steelseries_headset * list event) :=
  match raw_event_decode headset read_buf size with
  | None => None
  | Some ignored => Some (0, headset, raw_event_dbg headset size)
  | Some (candidate connected capacity) =>
      let '(headset1, evs1) := raw_event_update headset connected capacity in
      let '(headset2, evs2) := raw_event_rearm jiffies headset1 in
      Some (0, headset2, raw_event_dbg headset size ++ evs1 ++ evs2)
  end.

(** ** Teardown *)

Definition steelseries_headset_remove (headset : steelseries_headset)
  : steelseries_headset * list event :=
  let headset := set_removed true headset in
  let headset :=
    set_battery_work (cancel_delayed_work_sync (battery_work headset))
      headset in
  (headset,
   [ev_spin_lock_irqsave; ev_spin_unlock_irqrestore;
    ev_cancel_delayed_work_sync; ev_hid_hw_stop]).

(** ** Attach *)

(** What the rest of the kernel answers during one probe. *)
Record probe_io := mk_probe_io {
  devm_kzalloc_ok : bool;
  hid_parse_ret : Z;
  hid_hw_start_ret : Z;
  devm_kasprintf_ok : bool;
  devm_power_supply_register_ret : power_supply_ptr;
  fetch_io : usb_io
}.

Definition battery_name_fmt : string := "steelseries_headset_battery_%ld".

(** [battery_no] is the function's static counter, threaded through; it is
    taken far from the end of its range. *)
Definition steelseries_headset_battery_register (battery_no : Z)
  (io : probe_io) (headset : steelseries_headset)
  : Z * steelseries_headset * Z * list event :=
  let battery_no := battery_no + 1 in
  let n := battery_no - 1 in
  if negb (devm_kasprintf_ok io) then
    (- ENOMEM, set_battery_desc_name None headset, battery_no,
     [ev_devm_kasprintf battery_name_fmt n])
  else
    let headset := set_battery_desc_name (Some n) headset in
    let headset := set_battery_capacity 100 headset in
    let headset := set_battery (devm_power_supply_register_ret io) headset in
    if IS_ERR (battery headset) then
      let ret := PTR_ERR (battery headset) in
      (ret, headset, battery_no,
       [ev_devm_kasprintf battery_name_fmt n;
        ev_devm_power_supply_register;
        ev_hid_err "%s:power_supply_register failed with error %d\n"
          [arg_str "steelseries_headset_battery_register"; arg_int ret]])
    else
      let headset := set_battery_work [] headset in
      (0, headset, battery_no,
       [ev_devm_kasprintf battery_name_fmt n;
        ev_devm_power_supply_register;
        ev_power_supply_powers;
        ev_INIT_DELAYED_WORK]
       ++ steelseries_headset_fetch_battery headset (fetch_io io)).

(** The structure as [devm_kzalloc] hands it out. *)
Definition zeroed_headset : steelseries_headset :=
  mk_headset 0 [] false None NULL 0 false.

Definition set_quirks (q : Z) (h : steelseries_headset) :=
  mk_headset q (battery_work h) (removed h) (battery_desc_name h) (battery h)
             (battery_capacity h) (headset_connected h).

(** Returns the [int] of the C function, the driver data it has attached
    (if any), the counter and the calls made. *)
Definition steelseries_headset_probe (battery_no : Z) (io : probe_io)
  (driver_data : Z)
  : Z * option steelseries_headset * Z * list event :=
  if negb (devm_kzalloc_ok io) then
    (- ENOMEM, None, battery_no, [ev_devm_kzalloc])
  else
    let headset := set_quirks driver_data zeroed_headset in
    let ret := hid_parse_ret io in
    if negb (ret =? 0) then
      (ret, Some headset, battery_no, [ev_devm_kzalloc; ev_hid_parse])
    else
      let ret := hid_hw_start_ret io in
      if negb (ret =? 0) then
        (ret, Some headset, battery_no,
         [ev_devm_kzalloc; ev_hid_parse; ev_hid_hw_start])
      else
        let '(r, headset, battery_no, evs) :=
          steelseries_headset_battery_register battery_no io headset in
        (ret, Some headset, battery_no,
         [ev_devm_kzalloc; ev_hid_parse; ev_hid_hw_start] ++ evs ++
         (if r <? 0
          then [ev_hid_err "Failed to register battery for headset\n" []]
          else [])).

(** ** The life of a device *)

Record world := mk_world {
  jiffies : Z;
  dev : steelseries_headset;
  trace : list event
}.

Inductive op :=
| op_raw_event (read_buf : list byte) (size : Z)
| op_timer (io : usb_io)
| op_delay (ticks : N)
| op_remove.

(** Modelled from the spec: the workqueue (kernel/workqueue.c) is not among
    the sources of the driver.  A deferred task runs once after its delay:
    every armed instance that is due is taken off the work and its callback
    run. *)
Definition run_timer (w : world) (io : usb_io) : world :=
  let '(due, rest) :=
    partition (fun e => e <=? jiffies w) (battery_work (dev w)) in
  let headset := set_battery_work rest (dev w) in
  mk_world (jiffies w) headset
    (trace w ++
     flat_map (fun _ => steelseries_headset_battery_timer_tick headset io) due).

Definition run_op (w : world) (o : op) : option world :=
  match o with
  | op_raw_event read_buf size =>
      match steelseries_headset_raw_event (jiffies w) (dev w) read_buf size with
      | None => None
      | Some (_, headset, evs) =>
          Some (mk_world (jiffies w) headset (trace w ++ evs))
      end
  | op_timer io => Some (run_timer w io)
  | op_delay ticks =>
      Some (mk_world (jiffies w + Z.of_N ticks) (dev w) (trace w))
  | op_remove =>
      let '(headset, evs) := steelseries_headset_remove (dev w) in
      Some (mk_world (jiffies w) headset (trace w ++ evs))
  end.

Fixpoint run (w : world) (ops : list op) : option world :=
  match ops with
  | [] => Some w
  | o :: ops' =>
      match run_op w o with
      | None => None
      | Some w' => run w' ops'
      end
  end.

(** The buffer of a report holds the [size] bytes announced for it. *)
Definition report_ok (read_buf : list byte) (size : Z) : Prop :=
  size <= Z.of_nat (List.length read_buf).

Definition op_ok (o : op) : Prop :=
  match o with
  | op_raw_event read_buf size => report_ok read_buf size
  | _ => True
  end.

(** The calls of lines 246-250, on a device whose flag is [is_removed]. *)
Definition arm_calls (is_removed : bool) : list event :=
  if is_removed then [ev_spin_lock_irqsave; ev_spin_unlock_irqrestore]
  else [ev_spin_lock_irqsave;
        ev_schedule_delayed_work
          (msecs_to_jiffies STEELSERIES_HEADSET_BATTERY_TIMEOUT_MS);
        ev_spin_unlock_irqrestore].

(** A run of the handler that ends with the attempt to arm the work: the
    lock is taken once, at the end, and the work is armed exactly when the
    device is not removed. *)
Definition rearm_attempted (jiffies : Z) (headset : steelseries_headset)
  (res : option (Z * steelseries_headset * list event)) : Prop :=
  exists headset' pre,
    res = Some (0, headset', pre ++ arm_calls (removed headset)) /\
    filter is_lock pre = [] /\
    battery_work headset' =
      if removed headset then battery_work headset
      else [jiffies + msecs_to_jiffies STEELSERIES_HEADSET_BATTERY_TIMEOUT_MS].

(** ** Reading a trace *)

(** [connected ? USB_WIRELESS_STATUS_CONNECTED
               : USB_WIRELESS_STATUS_DISCONNECTED] (lines 232-234). *)
Definition wireless_status_of (connected : bool) : usb_wireless_status :=
  if connected then USB_WIRELESS_STATUS_CONNECTED
  else USB_WIRELESS_STATUS_DISCONNECTED.

(** The statuses handed to [usb_set_wireless_status], in order. *)
Definition statuses (evs : list event) : list usb_wireless_status :=
  flat_map
    (fun e => match e with ev_usb_set_wireless_status st => [st] | _ => [] end)
    evs.

(** No two neighbours of the list are equal. *)
Fixpoint alternates (l : list usb_wireless_status) : Prop :=
  match l with
  | a :: tl =>
      match tl with
      | b :: _ => a <> b /\ alternates tl
      | [] => True
      end
  | [] => True
  end.

Definition is_kfree (e : event) : bool :=
  match e with ev_kfree => true | _ => false end.

Definition is_hid_err (e : event) : bool :=
  match e with ev_hid_err _ _ => true | _ => false end.

Definition is_name_allocation (e : event) : bool :=
  match e with ev_devm_kasprintf _ _ => true | _ => false end.

(** ** Several devices *)

(** Devices probed one after the other; the static counter of the
    registration is handed from one probe to the next.  Returns the driver
    data of each probe. *)
Fixpoint probe_many (battery_no : Z) (devices : list (probe_io * Z))
  : list (option steelseries_headset) :=
  match devices with
  | [] => []
  | (io, driver_data) :: rest =>
      let '(_, drvdata, battery_no', _) :=
        steelseries_headset_probe battery_no io driver_data in
      drvdata :: probe_many battery_no' rest
  end.

(** The numbers of the battery names that were allocated. *)
Definition battery_names (l : list (option steelseries_headset)) : list Z :=
  flat_map
    (fun d => match d with
              | Some h =>
                  match battery_desc_name h with Some n => [n] | None => [] end
              | None => []
              end)
    l.

(** ** Sample devices and reports *)

(** An Arctis 1 device as a successful probe leaves it. *)
Definition arctis_1_headset : steelseries_headset :=
  mk_headset STEELSERIES_ARCTIS_1 [] false (Some 0) registered 100 false.

(** A device matched without any quirk. *)
Definition plain_headset : steelseries_headset :=
  mk_headset 0 [] false (Some 0) registered 100 false.

Definition report_absent : list byte :=
  [x06; x12; x01; x00; x00; x00; x00; x00].

Definition report_present_77 : list byte :=
  [x06; x12; x00; x4d; x00; x00; x00; x00].

Definition report_short : list byte :=
  [x06; x12; x00; x4d; x00; x00; x00].

(** A transfer that accepted both bytes, and one that stalled (-EPIPE). *)
Definition io_sent : usb_io := mk_usb_io true 2.
Definition io_stalled : usb_io := mk_usb_io true (- 32).

(** A probe during which only the allocation of the battery name fails. *)
Definition io_no_name : probe_io :=
  mk_probe_io true 0 0 false registered io_sent.

(** The tick of a kernel built with HZ = 1000. *)
Definition msecs_to_jiffies_hz1000 (m : Z) : Z := m.

(** A freshly probed Arctis 1 device at boot time. *)
Definition fresh_world : world := mk_world 0 arctis_1_headset [].

(** Some traffic: a report, a poll, five idle seconds, a report. *)
Definition sample_ops : list op :=
  [op_raw_event report_present_77 8; op_timer io_sent; op_delay 5000;
   op_raw_event report_absent 8].

(** A probe during which the allocation of the device state fails. *)
Definition io_no_state : probe_io :=
  mk_probe_io false 0 0 true registered io_sent.

(** A probe during which everything succeeds. *)
Definition io_all_good : probe_io :=
  mk_probe_io true 0 0 true registered io_sent.

(** Three Arctis 1 devices plugged in turn; the second gets no name. *)
Definition three_devices : list (probe_io * Z) :=
  [(io_all_good, STEELSERIES_ARCTIS_1); (io_no_name, STEELSERIES_ARCTIS_1);
   (io_all_good, STEELSERIES_ARCTIS_1)].

(** A transfer that accepted one byte only. *)
Definition io_one_byte : usb_io := mk_usb_io true 1.

(** The proofs below hold for every build of the kernel: a proof forgets
    the word size and the tick length unless its statement mentions them. *)
Ltac build_independent :=
  try clear BITS_PER_LONG; try clear msecs_to_jiffies.

(** ** Facts about the pieces of the handler *)

Lemma u8_range (b : byte) : 0 <= u8 b < 256.
Proof.
  build_independent.
  unfold u8. pose proof (Byte.to_N_bounded b) as Hb. lia.
Qed.

Lemma to_u8_u8 (b : byte) : to_u8 (u8 b) = u8 b.
Proof.
  build_independent.
  unfold to_u8. apply Z.mod_small. pose proof (u8_range b). lia.
Qed.

Lemma nth_error_in_report (read_buf : list byte) (size : Z) (i : nat) :
  report_ok read_buf size -> Z.of_nat i < size ->
  exists b, nth_error read_buf i = Some b.
Proof.
  build_independent.
  unfold report_ok. intros Hok Hi.
  destruct (nth_error read_buf i) as [b|] eqn:E.
  - now exists b.
  - apply nth_error_None in E. lia.
Qed.

(** A decoded capacity either fits [uint8_t] or is the stored one. *)
Lemma decode_capacity (headset : steelseries_headset) (read_buf : list byte)
  (size : Z) (connected : bool) (capacity : Z) :
  raw_event_decode headset read_buf size = Some (candidate connected capacity) ->
  to_u8 capacity = capacity \/
  (capacity = battery_capacity headset /\
   connected = headset_connected headset).
Proof.
  build_independent.
  unfold raw_event_decode.
  destruct (has_quirk headset STEELSERIES_ARCTIS_1).
  - destruct (size <? 8); [discriminate|].
    destruct (nth_error read_buf 2) as [b2|]; [|discriminate].
    destruct (u8 b2 =? 1).
    + intros H. inversion H. now left.
    + destruct (nth_error read_buf 3) as [b3|]; [|discriminate].
      intros H. inversion H. left. apply to_u8_u8.
  - intros H. inversion H. now right.
Qed.

Lemma raw_event_candidate (jiffies : Z) (headset : steelseries_headset)
  (read_buf : list byte) (size : Z) (connected : bool) (capacity : Z) :
  raw_event_decode headset read_buf size = Some (candidate connected capacity) ->
  steelseries_headset_raw_event jiffies headset read_buf size =
  Some (0,
        fst (raw_event_rearm jiffies
               (fst (raw_event_update headset connected capacity))),
        raw_event_dbg headset size ++
        snd (raw_event_update headset connected capacity) ++
        snd (raw_event_rearm jiffies
               (fst (raw_event_update headset connected capacity)))).
Proof.
  build_independent.
  intros H. unfold steelseries_headset_raw_event. rewrite H.
  destruct (raw_event_update headset connected capacity) as [h1 e1].
  simpl. now destruct (raw_event_rearm jiffies h1).
Qed.

Lemma update_connected (headset : steelseries_headset) (connected : bool)
  (capacity : Z) :
  headset_connected (fst (raw_event_update headset connected capacity))
  = connected.
Proof.
  build_independent.
  unfold raw_event_update.
  destruct connected, (headset_connected headset) eqn:E; simpl;
    destruct (capacity =? battery_capacity headset); simpl; congruence.
Qed.

Lemma update_capacity (headset : steelseries_headset) (connected : bool)
  (capacity : Z) :
  battery_capacity (fst (raw_event_update headset connected capacity))
  = if capacity =? battery_capacity headset then battery_capacity headset
    else to_u8 capacity.
Proof.
  build_independent.
  unfold raw_event_update.
  destruct (Bool.eqb connected (headset_connected headset)); simpl;
    destruct (capacity =? battery_capacity headset); reflexivity.
Qed.

Lemma update_same (headset : steelseries_headset) :
  raw_event_update headset (headset_connected headset)
    (battery_capacity headset) = (headset, []).
Proof.
  build_independent.
  unfold raw_event_update. rewrite Bool.eqb_reflx. cbn [negb].
  rewrite Z.eqb_refl. reflexivity.
Qed.

Lemma update_frame (headset : steelseries_headset) (connected : bool)
  (capacity : Z) :
  let h := fst (raw_event_update headset connected capacity) in
  removed h = removed headset /\ battery_work h = battery_work headset /\
  quirks h = quirks headset.
Proof.
  build_independent.
  unfold raw_event_update.
  destruct (Bool.eqb connected (headset_connected headset)); simpl;
    destruct (capacity =? battery_capacity headset); simpl; auto.
Qed.

Lemma update_events (headset : steelseries_headset) (connected : bool)
  (capacity : Z) :
  let evs := snd (raw_event_update headset connected capacity) in
  filter is_wireless_status evs =
    (if Bool.eqb connected (headset_connected headset) then []
     else [ev_usb_set_wireless_status
             (if connected then USB_WIRELESS_STATUS_CONNECTED
              else USB_WIRELESS_STATUS_DISCONNECTED)]) /\
  filter is_power_supply_changed evs =
    (if capacity =? battery_capacity headset then []
     else [ev_power_supply_changed]) /\
  filter is_schedule evs = [] /\ filter is_lock evs = [] /\
  filter is_raw_request evs = [].
Proof.
  build_independent.
  unfold raw_event_update.
  destruct (Bool.eqb connected (headset_connected headset)); simpl;
    destruct (capacity =? battery_capacity headset); simpl; auto.
Qed.

Lemma rearm_frame (jiffies : Z) (headset : steelseries_headset) :
  let h := fst (raw_event_rearm jiffies headset) in
  removed h = removed headset /\ quirks h = quirks headset /\
  headset_connected h = headset_connected headset /\
  battery_capacity h = battery_capacity headset.
Proof.
  build_independent.
  unfold raw_event_rearm. destruct (removed headset) eqn:E; simpl; auto.
Qed.

Lemma rearm_events (jiffies : Z) (headset : steelseries_headset) :
  let evs := snd (raw_event_rearm jiffies headset) in
  filter is_notification evs = [] /\ filter is_raw_request evs = [] /\
  filter is_wireless_status evs = [] /\
  filter is_power_supply_changed evs = [].
Proof.
  build_independent.
  unfold raw_event_rearm. destruct (removed headset); simpl; auto.
Qed.

Lemma dbg_events (headset : steelseries_headset) (size : Z) :
  let evs := raw_event_dbg headset size in
  filter is_notification evs = [] /\ filter is_raw_request evs = [] /\
  filter is_wireless_status evs = [] /\
  filter is_power_supply_changed evs = [] /\
  filter is_schedule evs = [] /\ filter is_lock evs = [].
Proof.
  build_independent.
  unfold raw_event_dbg.
  destruct (has_quirk headset STEELSERIES_ARCTIS_1); simpl; auto 10.
Qed.

(** The handler on a decoded candidate pair: the stored pair becomes the
    candidate pair, and the notifications in the trace are those of the two
    comparisons. *)
Lemma raw_event_candidate_result (jiffies : Z) (headset : steelseries_headset)
  (read_buf : list byte) (size : Z) (connected : bool) (capacity : Z) :
  raw_event_decode headset read_buf size = Some (candidate connected capacity) ->
  exists headset' evs,
    steelseries_headset_raw_event jiffies headset read_buf size
      = Some (0, headset', evs) /\
    headset_connected headset' = connected /\
    battery_capacity headset' = capacity /\
    filter is_wireless_status evs =
      (if Bool.eqb connected (headset_connected headset) then []
       else [ev_usb_set_wireless_status
               (if connected then USB_WIRELESS_STATUS_CONNECTED
                else USB_WIRELESS_STATUS_DISCONNECTED)]) /\
    filter is_power_supply_changed evs =
      (if capacity =? battery_capacity headset then []
       else [ev_power_supply_changed]).
Proof.
  build_independent.
  intros Hdec.
  pose proof (raw_event_candidate jiffies _ _ _ _ _ Hdec) as Hrun.
  pose proof (decode_capacity _ _ _ _ _ Hdec) as Hcap.
  set (h1 := fst (raw_event_update headset connected capacity)) in *.
  set (e1 := snd (raw_event_update headset connected capacity)) in *.
  set (h2 := fst (raw_event_rearm jiffies h1)) in *.
  set (e2 := snd (raw_event_rearm jiffies h1)) in *.
  exists h2, (raw_event_dbg headset size ++ e1 ++ e2).
  destruct (rearm_frame jiffies h1) as (_ & _ & Hc2 & Hb2).
  fold h2 in Hc2, Hb2.
  pose proof (update_connected headset connected capacity) as Hc1.
  pose proof (update_capacity headset connected capacity) as Hb1.
  fold h1 in Hc1, Hb1.
  destruct (update_events headset connected capacity) as (Hw & Hp & _).
  fold e1 in Hw, Hp.
  destruct (rearm_events jiffies h1) as (_ & _ & Hw2 & Hp2).
  fold e2 in Hw2, Hp2.
  destruct (dbg_events headset size) as (_ & _ & Hw0 & Hp0 & _).
  split; [exact Hrun|].
  split; [congruence|].
  split.
  { rewrite Hb2, Hb1.
    destruct (capacity =? battery_capacity headset) eqn:E.
    - apply Z.eqb_eq in E. congruence.
    - destruct Hcap as [Hfit | [Heq _]]; [exact Hfit|].
      apply Z.eqb_neq in E. contradiction. }
  split.
  - rewrite !filter_app, Hw0, Hw2, app_nil_r. exact Hw.
  - rewrite !filter_app, Hp0, Hp2, app_nil_r. exact Hp.
Qed.

Lemma in_filter_singleton (f : event -> bool) (e : event) (l : list event) :
  f e = true -> filter f l = [e] -> In e l.
Proof.
  build_independent.
  intros Hf Hl.
  assert (H : In e (filter f l)) by (rewrite Hl; now left).
  apply filter_In in H. tauto.
Qed.

Lemma not_in_filter_nil (f : event -> bool) (e : event) (l : list event) :
  f e = true -> filter f l = [] -> ~ In e l.
Proof.
  build_independent.
  intros Hf Hl Hin.
  assert (H : In e (filter f l)) by (apply filter_In; auto).
  rewrite Hl in H. destruct H.
Qed.

(** ** The state tracker *)

(** C5: once the handler has decoded a candidate pair, the wireless-status
    notification fires exactly when the candidate connection differs from
    the stored one, the power-supply notification exactly when the candidate
    capacity differs from the stored one, and each stored field changes
    exactly when its notification fires; afterwards the stored pair is the
    candidate pair. *)
Theorem raw_event_notifies_iff_changed (jiffies : Z)
  (headset : steelseries_headset) (read_buf : list byte) (size : Z)
  (connected : bool) (capacity : Z) :
  raw_event_decode headset read_buf size = Some (candidate connected capacity) ->
  exists headset' evs,
    steelseries_headset_raw_event jiffies headset read_buf size
      = Some (0, headset', evs) /\
    ((exists st, In (ev_usb_set_wireless_status st) evs)
       <-> connected <> headset_connected headset) /\
    (In ev_power_supply_changed evs
       <-> capacity <> battery_capacity headset) /\
    (headset_connected headset' <> headset_connected headset
       <-> exists st, In (ev_usb_set_wireless_status st) evs) /\
    (battery_capacity headset' <> battery_capacity headset
       <-> In ev_power_supply_changed evs) /\
    (List.length (filter is_wireless_status evs) <= 1)%nat /\
    (List.length (filter is_power_supply_changed evs) <= 1)%nat.
Proof.
  build_independent.
  intros Hdec.
  destruct (raw_event_candidate_result jiffies _ _ _ _ _ Hdec)
    as (h' & evs & Hrun & Hc & Hb & Hw & Hp).
  exists h', evs.
  assert (Win : (exists st, In (ev_usb_set_wireless_status st) evs)
                <-> connected <> headset_connected headset).
  { destruct (Bool.eqb connected (headset_connected headset)) eqn:E.
    - apply Bool.eqb_prop in E. split; [|congruence].
      intros [st Hin]. exfalso.
      exact (not_in_filter_nil is_wireless_status (ev_usb_set_wireless_status st) evs eq_refl Hw Hin).
    - split.
      + intros _ Heq. rewrite Heq, Bool.eqb_reflx in E. discriminate.
      + intros _. eexists. apply (in_filter_singleton is_wireless_status _ evs); [reflexivity | exact Hw]. }
  assert (Pin : In ev_power_supply_changed evs
                <-> capacity <> battery_capacity headset).
  { destruct (capacity =? battery_capacity headset) eqn:E.
    - apply Z.eqb_eq in E. split; [|congruence].
      intros Hin. exfalso.
      exact (not_in_filter_nil is_power_supply_changed ev_power_supply_changed evs eq_refl Hp Hin).
    - apply Z.eqb_neq in E. split; [intros _; exact E|].
      intros _. exact (in_filter_singleton is_power_supply_changed ev_power_supply_changed evs eq_refl Hp). }
  split; [exact Hrun|].
  split; [exact Win|].
  split; [exact Pin|].
  split; [rewrite Win, Hc; reflexivity|].
  split; [rewrite Pin, Hb; reflexivity|].
  split.
  - rewrite Hw.
    destruct (Bool.eqb connected (headset_connected headset)); simpl; lia.
  - rewrite Hp.
    destruct (capacity =? battery_capacity headset); simpl; lia.
Qed.

(** C2: on an Arctis 1 device, a report of at least 8 bytes whose byte at
    offset 2 is 0x01 leaves [headset_connected = false] and
    [battery_capacity = 100], whatever the state before. *)
Theorem arctis_1_report_headset_absent (jiffies : Z)
  (headset : steelseries_headset) (read_buf : list byte) (size : Z)
  (b2 : byte) :
  has_quirk headset STEELSERIES_ARCTIS_1 = true ->
  8 <= size ->
  report_ok read_buf size ->
  nth_error read_buf 2 = Some b2 ->
  u8 b2 = 0x01 ->
  exists headset' evs,
    steelseries_headset_raw_event jiffies headset read_buf size
      = Some (0, headset', evs) /\
    headset_connected headset' = false /\
    battery_capacity headset' = 100.
Proof.
  build_independent.
  intros Hq Hsize _ Hb2 Hv.
  assert (Hdec : raw_event_decode headset read_buf size
                 = Some (candidate false 100)).
  { unfold raw_event_decode. rewrite Hq.
    destruct (size <? 8) eqn:E; [apply Z.ltb_lt in E; lia|].
    rewrite Hb2, Hv. reflexivity. }
  destruct (raw_event_candidate_result jiffies _ _ _ _ _ Hdec)
    as (h' & evs & Hrun & Hc & Hb & _).
  exists h', evs. auto.
Qed.

(** C3: on an Arctis 1 device, a report of at least 8 bytes whose byte at
    offset 2 is not 0x01 leaves [headset_connected = true] and
    [battery_capacity] equal to the byte at offset 3, whatever its value. *)
Theorem arctis_1_report_headset_present (jiffies : Z)
  (headset : steelseries_headset) (read_buf : list byte) (size : Z)
  (b2 b3 : byte) :
  has_quirk headset STEELSERIES_ARCTIS_1 = true ->
  8 <= size ->
  report_ok read_buf size ->
  nth_error read_buf 2 = Some b2 ->
  nth_error read_buf 3 = Some b3 ->
  u8 b2 <> 0x01 ->
  exists headset' evs,
    steelseries_headset_raw_event jiffies headset read_buf size
      = Some (0, headset', evs) /\
    headset_connected headset' = true /\
    battery_capacity headset' = u8 b3.
Proof.
  build_independent.
  intros Hq Hsize _ Hb2 Hb3 Hv.
  assert (Hdec : raw_event_decode headset read_buf size
                 = Some (candidate true (u8 b3))).
  { unfold raw_event_decode. rewrite Hq.
    destruct (size <? 8) eqn:E; [apply Z.ltb_lt in E; lia|].
    rewrite Hb2. apply Z.eqb_neq in Hv. rewrite Hv, Hb3. reflexivity. }
  destruct (raw_event_candidate_result jiffies _ _ _ _ _ Hdec)
    as (h' & evs & Hrun & Hc & Hb & _).
  exists h', evs. auto.
Qed.

(** C4: on an Arctis 1 device, a report shorter than 8 bytes leaves the
    device state as it was and notifies neither collaborator. *)
Theorem arctis_1_short_report_ignored (jiffies : Z)
  (headset : steelseries_headset) (read_buf : list byte) (size : Z) :
  has_quirk headset STEELSERIES_ARCTIS_1 = true ->
  size < 8 ->
  exists evs,
    steelseries_headset_raw_event jiffies headset read_buf size
      = Some (0, headset, evs) /\
    filter is_notification evs = [].
Proof.
  build_independent.
  intros Hq Hsize.
  unfold steelseries_headset_raw_event, raw_event_decode. rewrite Hq.
  apply Z.ltb_lt in Hsize. rewrite Hsize.
  eexists. split; [reflexivity|].
  apply dbg_events.
Qed.

(** ** Arming the poll *)

Lemma decode_total (headset : steelseries_headset) (read_buf : list byte)
  (size : Z) :
  report_ok read_buf size ->
  (has_quirk headset STEELSERIES_ARCTIS_1 = true -> 8 <= size) ->
  exists connected capacity,
    raw_event_decode headset read_buf size
    = Some (candidate connected capacity).
Proof.
  build_independent.
  intros Hok Hsize. unfold raw_event_decode.
  destruct (has_quirk headset STEELSERIES_ARCTIS_1); [|eauto].
  specialize (Hsize eq_refl).
  destruct (size <? 8) eqn:E; [apply Z.ltb_lt in E; lia|].
  destruct (nth_error_in_report read_buf size 2 Hok) as [b2 ->]; [lia|].
  destruct (u8 b2 =? 1); [eauto|].
  destruct (nth_error_in_report read_buf size 3 Hok) as [b3 ->]; [lia|].
  eauto.
Qed.

Lemma rearm_calls (jiffies : Z) (headset : steelseries_headset) :
  raw_event_rearm jiffies headset =
  (if removed headset then headset
   else set_battery_work
          [jiffies + msecs_to_jiffies STEELSERIES_HEADSET_BATTERY_TIMEOUT_MS]
          headset,
   arm_calls (removed headset)).
Proof.
  build_independent.
  unfold raw_event_rearm, arm_calls, schedule_delayed_work.
  now destruct (removed headset).
Qed.

Lemma candidate_rearm_attempted (jiffies : Z) (headset : steelseries_headset)
  (read_buf : list byte) (size : Z) (connected : bool) (capacity : Z) :
  raw_event_decode headset read_buf size = Some (candidate connected capacity) ->
  rearm_attempted jiffies headset
    (steelseries_headset_raw_event jiffies headset read_buf size).
Proof.
  build_independent.
  intros Hdec. rewrite (raw_event_candidate jiffies _ _ _ _ _ Hdec).
  destruct (update_frame headset connected capacity) as (Hr & Hw & _).
  destruct (update_events headset connected capacity) as (_ & _ & _ & Hl & _).
  destruct (dbg_events headset size) as (_ & _ & _ & _ & _ & Hl0).
  set (h1 := fst (raw_event_update headset connected capacity)) in *.
  set (e1 := snd (raw_event_update headset connected capacity)) in *.
  rewrite rearm_calls. cbn [fst snd]. rewrite Hr.
  eexists _, (raw_event_dbg headset size ++ e1).
  split; [rewrite <- app_assoc; reflexivity|].
  split; [rewrite filter_app, Hl0, Hl; reflexivity|].
  destruct (removed headset); [exact Hw | reflexivity].
Qed.

Lemma ignored_not_rearmed (jiffies : Z) (headset : steelseries_headset)
  (read_buf : list byte) (size : Z) :
  has_quirk headset STEELSERIES_ARCTIS_1 = true -> size < 8 ->
  steelseries_headset_raw_event jiffies headset read_buf size
  = Some (0, headset,
          [ev_hid_dbg "Parsing raw event for Arctis 1 headset (len: %d)\n"
             [arg_int size]]).
Proof.
  build_independent.
  intros Hq Hsize.
  unfold steelseries_headset_raw_event, raw_event_decode, raw_event_dbg.
  apply Z.ltb_lt in Hsize. rewrite Hq, Hsize. reflexivity.
Qed.

(** C6, amended: the handler ends by attempting to arm the poll, gated only
    on the removed flag, for every report except the ones it ignores: on an
    Arctis 1 device a report shorter than 8 bytes returns before the lock is
    taken, with the state as it was and its debug message as the only call,
    so that no lock is taken and nothing is armed. *)
Theorem raw_event_rearms_unless_ignored (jiffies : Z)
  (headset : steelseries_headset) (read_buf : list byte) (size : Z) :
  report_ok read_buf size ->
  (rearm_attempted jiffies headset
     (steelseries_headset_raw_event jiffies headset read_buf size)
   <-> ~ (has_quirk headset STEELSERIES_ARCTIS_1 = true /\ size < 8)) /\
  (has_quirk headset STEELSERIES_ARCTIS_1 = true -> size < 8 ->
   exists evs,
     steelseries_headset_raw_event jiffies headset read_buf size
       = Some (0, headset, evs) /\
     evs = [ev_hid_dbg "Parsing raw event for Arctis 1 headset (len: %d)\n"
              [arg_int size]] /\
     filter is_lock evs = [] /\ filter is_schedule evs = []).
Proof.
  build_independent.
  intros Hok. split; [split|].
  - intros (h' & pre & Hrun & _ & _) [Hq Hsize].
    rewrite (ignored_not_rearmed jiffies _ read_buf _ Hq Hsize) in Hrun.
    injection Hrun as _ Hevs.
    apply (f_equal (@List.length event)) in Hevs.
    rewrite length_app in Hevs. unfold arm_calls in Hevs.
    destruct (removed headset); cbn [List.length] in Hevs; lia.
  - intros Hnot.
    destruct (decode_total headset read_buf size Hok) as (c & cap & Hdec).
    + intros Hq. destruct (Z.lt_ge_cases size 8); [tauto | assumption].
    + exact (candidate_rearm_attempted jiffies _ _ _ _ _ Hdec).
  - intros Hq Hsize. eexists.
    split; [exact (ignored_not_rearmed jiffies _ read_buf _ Hq Hsize)|].
    repeat split.
Qed.

(** C10: on a device without the Arctis 1 quirk, a report of any length
    leaves the stored connection and capacity as they were, notifies
    nobody, and still ends with the attempt to arm the poll, gated on the
    removed flag. *)
Theorem non_arctis_report_only_rearms (jiffies : Z)
  (headset : steelseries_headset) (read_buf : list byte) (size : Z) :
  has_quirk headset STEELSERIES_ARCTIS_1 = false ->
  exists headset',
    steelseries_headset_raw_event jiffies headset read_buf size
      = Some (0, headset', arm_calls (removed headset)) /\
    headset_connected headset' = headset_connected headset /\
    battery_capacity headset' = battery_capacity headset /\
    filter is_notification (arm_calls (removed headset)) = [] /\
    rearm_attempted jiffies headset
      (steelseries_headset_raw_event jiffies headset read_buf size).
Proof.
  build_independent.
  intros Hq.
  assert (Hdec : raw_event_decode headset read_buf size
                 = Some (candidate (headset_connected headset)
                           (battery_capacity headset))).
  { unfold raw_event_decode. rewrite Hq. reflexivity. }
  assert (Hrun : steelseries_headset_raw_event jiffies headset read_buf size
                 = Some (0, fst (raw_event_rearm jiffies headset),
                         arm_calls (removed headset))).
  { unfold steelseries_headset_raw_event. rewrite Hdec, update_same.
    unfold raw_event_dbg. rewrite Hq, rearm_calls. reflexivity. }
  exists (fst (raw_event_rearm jiffies headset)).
  destruct (rearm_frame jiffies headset) as (_ & _ & Hc & Hb).
  split; [exact Hrun|].
  split; [exact Hc|].
  split; [exact Hb|].
  split.
  - unfold arm_calls. destruct (removed headset); reflexivity.
  - exact (candidate_rearm_attempted jiffies _ _ _ _ _ Hdec).
Qed.

(** ** The life of a device: invariants *)

(** What one delivered report does to the lifecycle fields. *)
Lemma raw_event_lifecycle (jiffies : Z) (headset : steelseries_headset)
  (read_buf : list byte) (size : Z) :
  report_ok read_buf size ->
  exists headset' evs,
    steelseries_headset_raw_event jiffies headset read_buf size
      = Some (0, headset', evs) /\
    removed headset' = removed headset /\
    quirks headset' = quirks headset /\
    battery_work headset' =
      (if (has_quirk headset STEELSERIES_ARCTIS_1 && (size <? 8))
          || removed headset
       then battery_work headset
       else [jiffies + msecs_to_jiffies STEELSERIES_HEADSET_BATTERY_TIMEOUT_MS])
    /\ filter is_raw_request evs = [] /\
    (removed headset = true -> filter is_schedule evs = []).
Proof.
  build_independent.
  intros Hok.
  destruct (has_quirk headset STEELSERIES_ARCTIS_1 && (size <? 8)) eqn:Hign.
  - apply andb_true_iff in Hign. destruct Hign as [Hq Hsize].
    apply Z.ltb_lt in Hsize.
    rewrite (ignored_not_rearmed jiffies _ read_buf _ Hq Hsize).
    eexists _, _. split; [reflexivity|]. cbn. auto.
  - destruct (decode_total headset read_buf size Hok) as (c & cap & Hdec).
    { intros Hq. rewrite Hq in Hign. cbn in Hign.
      apply Z.ltb_ge in Hign. exact Hign. }
    rewrite (raw_event_candidate jiffies _ _ _ _ _ Hdec).
    destruct (update_frame headset c cap) as (Hr & Hw & Hqk).
    destruct (update_events headset c cap) as (_ & _ & Hs & _ & Hrq).
    destruct (dbg_events headset size) as (_ & Hrq0 & _ & _ & Hs0 & _).
    set (h1 := fst (raw_event_update headset c cap)) in *.
    set (e1 := snd (raw_event_update headset c cap)) in *.
    rewrite rearm_calls. cbn [fst snd orb]. rewrite Hr.
    eexists _, _. split; [reflexivity|].
    unfold arm_calls.
    destruct (removed headset) eqn:Erem; cbn [set_battery_work removed quirks
      battery_work]; rewrite !filter_app, ?Hrq0, ?Hrq, ?Hs0, ?Hs; cbn;
      repeat split; auto; discriminate.
Qed.

Lemma has_quirk_quirks (h h' : steelseries_headset) (flag : Z) :
  quirks h' = quirks h -> has_quirk h' flag = has_quirk h flag.
Proof. build_independent. unfold has_quirk. now intros ->. Qed.

Lemma partition_rest_length (f : Z -> bool) (l : list Z) :
  (List.length (snd (partition f l)) <= List.length l)%nat.
Proof.
  build_independent.
  destruct (partition f l) as [l1 l2] eqn:E.
  apply partition_length in E. cbn. lia.
Qed.

Lemma run_timer_idle (w : world) (io : usb_io) :
  battery_work (dev w) = [] ->
  dev (run_timer w io) = dev w /\ trace (run_timer w io) = trace w /\
  jiffies (run_timer w io) = jiffies w.
Proof.
  build_independent.
  intros Hw. unfold run_timer. rewrite Hw. cbn.
  rewrite app_nil_r. repeat split.
  destruct (dev w); cbn in *; now subst.
Qed.

Lemma run_timer_lifecycle (w : world) (io : usb_io) :
  removed (dev (run_timer w io)) = removed (dev w) /\
  quirks (dev (run_timer w io)) = quirks (dev w) /\
  (List.length (battery_work (dev (run_timer w io)))
   <= List.length (battery_work (dev w)))%nat.
Proof.
  build_independent.
  unfold run_timer.
  pose proof (partition_rest_length (fun e => e <=? jiffies w)
                (battery_work (dev w))) as Hlen.
  destruct (partition (fun e => e <=? jiffies w) (battery_work (dev w))).
  cbn in *. auto.
Qed.

(** Once the device is removed and its work cancelled, it stays so. *)
Lemma run_torn_down (ops : list op) :
  forall w : world,
    Forall op_ok ops ->
    removed (dev w) = true -> battery_work (dev w) = [] ->
    exists w',
      run w ops = Some w' /\
      removed (dev w') = true /\ battery_work (dev w') = [] /\
      exists evs,
        trace w' = trace w ++ evs /\
        filter is_schedule evs = [] /\ filter is_raw_request evs = [].
Proof.
  build_independent.
  induction ops as [|o ops IH]; intros w Hops Hrem Hwork.
  - exists w. cbn. repeat split; auto. exists []. now rewrite app_nil_r.
  - inversion Hops as [|o' ops' Ho Hops']; subst.
    assert (Hstep : exists w1 evs1,
               run_op w o = Some w1 /\
               removed (dev w1) = true /\ battery_work (dev w1) = [] /\
               trace w1 = trace w ++ evs1 /\
               filter is_schedule evs1 = [] /\
               filter is_raw_request evs1 = []).
    { destruct o as [read_buf size | io | ticks | ]; cbn [run_op].
      - destruct (raw_event_lifecycle (jiffies w) (dev w) read_buf size Ho)
          as (h' & evs & -> & Hr & _ & Hw & Hrq & Hs).
        rewrite Hrem, orb_true_r in Hw.
        exists (mk_world (jiffies w) h' (trace w ++ evs)), evs. cbn.
        repeat split; auto; congruence.
      - destruct (run_timer_idle w io Hwork) as (Hd & Ht & _).
        exists (run_timer w io), []. rewrite Hd, Ht, app_nil_r.
        repeat split; auto.
      - exists (mk_world (jiffies w + Z.of_N ticks) (dev w) (trace w)), [].
        cbn. rewrite app_nil_r. repeat split; auto.
      - eexists _, _. cbn. repeat split; reflexivity. }
    destruct Hstep as (w1 & evs1 & Hrun1 & Hrem1 & Hwork1 & Ht1 & Hs1 & Hq1).
    destruct (IH w1 Hops' Hrem1 Hwork1)
      as (w' & Hrun & Hrem' & Hwork' & evs & Ht & Hs & Hq).
    exists w'. cbn [run]. rewrite Hrun1.
    repeat split; auto.
    exists (evs1 ++ evs). rewrite Ht, Ht1, app_assoc, !filter_app, Hs1, Hs, Hq1, Hq.
    auto.
Qed.

(** C1: once teardown has set the removed flag and cancelled the work, no
    poll is armed again: whatever is delivered afterwards, the work stays
    unarmed, no call arms it and no poll request is sent. *)
Theorem no_poll_armed_after_remove (w : world) (ops : list op) :
  Forall op_ok ops ->
  exists w',
    run w (op_remove :: ops) = Some w' /\
    removed (dev w') = true /\ battery_work (dev w') = [] /\
    exists evs,
      trace w' = trace w ++ snd (steelseries_headset_remove (dev w)) ++ evs /\
      filter is_schedule evs = [] /\ filter is_raw_request evs = [].
Proof.
  build_independent.
  intros Hops. cbn [run run_op].
  unfold steelseries_headset_remove.
  set (w1 := mk_world _ _ _).
  destruct (run_torn_down ops w1 Hops eq_refl eq_refl)
    as (w' & Hrun & Hrem & Hwork & evs & Ht & Hs & Hq).
  exists w'. repeat split; auto.
  exists evs. rewrite Ht. subst w1. cbn [trace snd].
  rewrite <- app_assoc. auto.
Qed.

(** Every run of well-formed operations succeeds and never leaves more than
    one armed instance. *)
Lemma run_at_most_one (ops : list op) :
  forall w : world,
    Forall op_ok ops ->
    (List.length (battery_work (dev w)) <= 1)%nat ->
    exists w',
      run w ops = Some w' /\
      (List.length (battery_work (dev w')) <= 1)%nat.
Proof.
  build_independent.
  induction ops as [|o ops IH]; intros w Hops Hlen.
  - exists w. auto.
  - inversion Hops as [|o' ops' Ho Hops']; subst.
    assert (Hstep : exists w1,
               run_op w o = Some w1 /\
               (List.length (battery_work (dev w1)) <= 1)%nat).
    { destruct o as [read_buf size | io | ticks | ]; cbn [run_op].
      - destruct (raw_event_lifecycle (jiffies w) (dev w) read_buf size Ho)
          as (h' & evs & -> & _ & _ & Hw & _).
        eexists. split; [reflexivity|]. cbn [dev]. rewrite Hw.
        destruct (_ || _); cbn; lia.
      - eexists. split; [reflexivity|].
        destruct (run_timer_lifecycle w io) as (_ & _ & Hl). lia.
      - eexists. split; [reflexivity|]. exact Hlen.
      - eexists. split; [reflexivity|]. cbn. lia. }
    destruct Hstep as (w1 & Hrun1 & Hlen1).
    destruct (IH w1 Hops' Hlen1) as (w' & Hrun & Hlen').
    exists w'. cbn [run]. rewrite Hrun1. auto.
Qed.

(** C7: at most one poll is armed at any time, and a second arming before
    the first has fired replaces it: the only armed instance is then due a
    full delay after the second arming. *)
Theorem at_most_one_poll_armed (w : world) (ops : list op) :
  (List.length (battery_work (dev w)) <= 1)%nat ->
  Forall op_ok ops ->
  exists w',
    run w ops = Some w' /\
    (List.length (battery_work (dev w')) <= 1)%nat /\
    forall (buf1 buf2 : list byte) (size1 size2 : Z) (ticks : N),
      removed (dev w') = false ->
      report_ok buf1 size1 -> report_ok buf2 size2 ->
      (has_quirk (dev w') STEELSERIES_ARCTIS_1 = true ->
       8 <= size1 /\ 8 <= size2) ->
      exists w1 w2,
        run w' [op_raw_event buf1 size1] = Some w1 /\
        battery_work (dev w1) =
          [jiffies w'
           + msecs_to_jiffies STEELSERIES_HEADSET_BATTERY_TIMEOUT_MS] /\
        run w1 [op_delay ticks; op_raw_event buf2 size2] = Some w2 /\
        battery_work (dev w2) =
          [jiffies w' + Z.of_N ticks
           + msecs_to_jiffies STEELSERIES_HEADSET_BATTERY_TIMEOUT_MS].
Proof.
  build_independent.
  intros Hlen Hops.
  destruct (run_at_most_one ops w Hops Hlen) as (w' & Hrun & Hlen').
  exists w'. split; [exact Hrun|]. split; [exact Hlen'|].
  intros buf1 buf2 size1 size2 ticks Hrem Hok1 Hok2 Hsize.
  assert (Hign : forall h size,
             quirks h = quirks (dev w') ->
             (has_quirk (dev w') STEELSERIES_ARCTIS_1 = true -> 8 <= size) ->
             has_quirk h STEELSERIES_ARCTIS_1 && (size <? 8) = false).
  { intros h size Hq Hs. rewrite (has_quirk_quirks _ _ _ Hq).
    destruct (has_quirk (dev w') STEELSERIES_ARCTIS_1); [|reflexivity].
    cbn. apply Z.ltb_ge. auto. }
  destruct (raw_event_lifecycle (jiffies w') (dev w') buf1 size1 Hok1)
    as (h1 & evs1 & Hrun1 & Hr1 & Hq1 & Hw1 & _).
  rewrite (Hign (dev w') size1 eq_refl), Hrem in Hw1 by (intros; now apply Hsize).
  cbn [orb] in Hw1.
  destruct (raw_event_lifecycle (jiffies w' + Z.of_N ticks) h1 buf2 size2 Hok2)
    as (h2 & evs2 & Hrun2 & Hr2 & Hq2 & Hw2 & _).
  rewrite (Hign h1 size2 Hq1), Hr1, Hrem in Hw2 by (intros; now apply Hsize).
  cbn [orb] in Hw2.
  exists (mk_world (jiffies w') h1 (trace w' ++ evs1)),
         (mk_world (jiffies w' + Z.of_N ticks) h2
            ((trace w' ++ evs1) ++ evs2)).
  cbn [run run_op jiffies dev trace]. rewrite Hrun1, Hrun2. cbn [dev].
  repeat split; assumption.
Qed.

(** ** The battery query *)

Section LongSize.

Hypothesis long_size : BITS_PER_LONG = 32 \/ BITS_PER_LONG = 64.

(** The comparison of line 54 is made in [size_t]: an [int] below zero is
    converted to a large unsigned value and is not below [sizeof]. *)
Lemma to_size_t_below_sizeof (ret : Z) :
  INT_MIN <= ret <= INT_MAX ->
  (to_size_t ret <? sizeof_battery_request) = (0 <=? ret) && (ret <? 2).
Proof using long_size.
  unfold INT_MIN, INT_MAX, to_size_t. intros Hret.
  change sizeof_battery_request with 2.
  assert (Hpow : 2 ^ 32 <= 2 ^ BITS_PER_LONG).
  { destruct long_size as [-> | ->]; [lia|].
    apply Z.pow_le_mono_r; lia. }
  change (2 ^ 31) with 2147483648 in Hret.
  change (2 ^ 32) with 4294967296 in Hpow.
  destruct (0 <=? ret) eqn:E.
  - apply Z.leb_le in E. rewrite Z.mod_small by lia. reflexivity.
  - apply Z.leb_gt in E. cbn [andb].
    rewrite <- (Z_mod_plus_full ret 1 (2 ^ BITS_PER_LONG)).
    rewrite Z.mod_small by lia. apply Z.ltb_ge. lia.
Qed.

Lemma arctis_1_fetch_battery_sent (io : usb_io) :
  kmemdup_ok io = true ->
  INT_MIN <= raw_request_ret io <= INT_MAX ->
  exists evs,
    steelseries_headset_arctis_1_fetch_battery io
    = (if (0 <=? raw_request_ret io) && (raw_request_ret io <? 2)
       then - ENODATA else raw_request_ret io, evs) /\
    filter is_raw_request evs =
      [ev_hid_hw_raw_request 0x06 [0x06; 0x12] 2
         HID_OUTPUT_REPORT HID_REQ_SET_REPORT] /\
    filter is_schedule evs = [].
Proof using long_size.
  intros Hmem Hret. unfold steelseries_headset_arctis_1_fetch_battery.
  rewrite Hmem, (to_size_t_below_sizeof _ Hret). cbn [negb].
  destruct ((0 <=? raw_request_ret io) && (raw_request_ret io <? 2));
    eexists; split; try reflexivity; cbn; auto.
Qed.

(** A negative result of the transfer is handed back as it is, without the
    error-level message. *)
Lemma arctis_1_fetch_battery_negative (io : usb_io) :
  kmemdup_ok io = true ->
  INT_MIN <= raw_request_ret io < 0 ->
  steelseries_headset_arctis_1_fetch_battery io
  = (raw_request_ret io,
     [ev_kmemdup [0x06; 0x12] 2;
      ev_hid_hw_raw_request 0x06 [0x06; 0x12] 2
        HID_OUTPUT_REPORT HID_REQ_SET_REPORT;
      ev_kfree]).
Proof using long_size.
  intros Hmem Hret. unfold steelseries_headset_arctis_1_fetch_battery.
  rewrite Hmem, to_size_t_below_sizeof by (unfold INT_MIN, INT_MAX in *; lia).
  destruct (0 <=? raw_request_ret io) eqn:E; [apply Z.leb_le in E; lia|].
  reflexivity.
Qed.

(** C8: the battery query sends exactly the two bytes 0x06, 0x12 as one
    output SET_REPORT transfer with report number 0x06; it returns an error
    exactly when the transfer reports fewer than the two bytes; its caller
    then only logs the error at debug level, sends nothing more and arms
    nothing. *)
Theorem fetch_battery_transfer (headset : steelseries_headset) (io : usb_io) :
  has_quirk headset STEELSERIES_ARCTIS_1 = true ->
  kmemdup_ok io = true ->
  INT_MIN <= raw_request_ret io <= INT_MAX ->
  exists ret evs,
    steelseries_headset_arctis_1_fetch_battery io = (ret, evs) /\
    filter is_raw_request evs =
      [ev_hid_hw_raw_request 0x06 [0x06; 0x12] 2
         HID_OUTPUT_REPORT HID_REQ_SET_REPORT] /\
    (ret < 0 <-> raw_request_ret io < 2) /\
    (0 <= raw_request_ret io < 2 -> ret = - ENODATA) /\
    steelseries_headset_fetch_battery headset io =
      evs ++ (if ret <? 0
              then [ev_hid_dbg "Battery query failed (err: %d)\n"
                      [arg_int ret]]
              else []) /\
    filter is_raw_request (steelseries_headset_fetch_battery headset io) =
      [ev_hid_hw_raw_request 0x06 [0x06; 0x12] 2
         HID_OUTPUT_REPORT HID_REQ_SET_REPORT] /\
    filter is_schedule (steelseries_headset_fetch_battery headset io) = [].
Proof using long_size.
  intros Hq Hmem Hret.
  destruct (arctis_1_fetch_battery_sent io Hmem Hret) as (evs & Hrun & Hrq & Hs).
  eexists _, evs. split; [exact Hrun|].
  split; [exact Hrq|].
  assert (Hfetch : steelseries_headset_fetch_battery headset io =
            evs ++ (if (if (0 <=? raw_request_ret io)
                           && (raw_request_ret io <? 2)
                        then - ENODATA else raw_request_ret io) <? 0
                    then [ev_hid_dbg "Battery query failed (err: %d)\n"
                            [arg_int
                               (if (0 <=? raw_request_ret io)
                                   && (raw_request_ret io <? 2)
                                then - ENODATA else raw_request_ret io)]]
                    else [])).
  { unfold steelseries_headset_fetch_battery. rewrite Hq, Hrun.
    destruct (_ <? 0); [reflexivity | now rewrite app_nil_r]. }
  split.
  { destruct (0 <=? raw_request_ret io) eqn:E0;
      destruct (raw_request_ret io <?  2) eqn:E2; cbn [andb];
      unfold ENODATA;
      try apply Z.leb_le in E0; try apply Z.leb_gt in E0;
      try apply Z.ltb_lt in E2; try apply Z.ltb_ge in E2; lia. }
  split.
  { intros [H0 H2]. apply Z.leb_le in H0. apply Z.ltb_lt in H2.
    now rewrite H0, H2. }
  split; [exact Hfetch|].
  rewrite Hfetch, !filter_app, Hrq, Hs.
  split; destruct (_ <? 0); reflexivity.
Qed.

(** X13: with the buffer allocated, the query turns a transfer that
    accepted 0 or 1 byte into -ENODATA and reports it at error level; any
    other result, a negative error code included, is handed back as it is
    without that message, because the comparison of line 54 is unsigned;
    the query therefore never returns 0 or 1. *)
Theorem fetch_battery_error_codes (io : usb_io) :
  kmemdup_ok io = true ->
  INT_MIN <= raw_request_ret io <= INT_MAX ->
  exists ret evs,
    steelseries_headset_arctis_1_fetch_battery io = (ret, evs) /\
    (0 <= raw_request_ret io < 2 ->
     ret = - ENODATA /\ filter is_hid_err evs <> []) /\
    (raw_request_ret io < 0 \/ 2 <= raw_request_ret io ->
     ret = raw_request_ret io /\ filter is_hid_err evs = []) /\
    ret <> 0 /\ ret <> 1.
Proof using long_size.
  try clear msecs_to_jiffies.
  intros Hmem Hret. unfold steelseries_headset_arctis_1_fetch_battery.
  rewrite Hmem, (to_size_t_below_sizeof _ Hret). cbn [negb].
  destruct (0 <=? raw_request_ret io) eqn:E0;
    destruct (raw_request_ret io <? 2) eqn:E2; cbn [andb];
    try apply Z.leb_le in E0; try apply Z.leb_gt in E0;
    try apply Z.ltb_lt in E2; try apply Z.ltb_ge in E2;
    eexists _, _; (split; [reflexivity|]); unfold ENODATA; cbn;
    repeat split; try lia; try discriminate; auto; intros; lia.
Qed.

End LongSize.

(** ** Attach *)

(** C9, amended: a failure of the allocation of the device state is fatal,
    the probe returns -ENOMEM with nothing attached; the value the probe
    returns depends on no later allocation, and a failure of the allocation
    of the battery name is logged while the probe returns 0 with the device
    attached. *)
Theorem probe_allocation_failures (battery_no : Z) (io : probe_io)
  (driver_data : Z) :
  fst (fst (fst (steelseries_headset_probe battery_no io driver_data))) =
    (if devm_kzalloc_ok io then
       if hid_parse_ret io =? 0 then hid_hw_start_ret io
       else hid_parse_ret io
     else - ENOMEM) /\
  (devm_kzalloc_ok io = false ->
   steelseries_headset_probe battery_no io driver_data
   = (- ENOMEM, None, battery_no, [ev_devm_kzalloc])) /\
  (devm_kzalloc_ok io = true ->
   hid_parse_ret io = 0 -> hid_hw_start_ret io = 0 ->
   devm_kasprintf_ok io = false ->
   steelseries_headset_probe battery_no io driver_data
   = (0, Some (set_quirks driver_data zeroed_headset), battery_no + 1,
      [ev_devm_kzalloc; ev_hid_parse; ev_hid_hw_start;
       ev_devm_kasprintf battery_name_fmt battery_no;
       ev_hid_err "Failed to register battery for headset\n" []])).
Proof.
  build_independent.
  split; [|split].
  - unfold steelseries_headset_probe.
    destruct (devm_kzalloc_ok io); [|reflexivity]. cbn [negb].
    destruct (hid_parse_ret io =? 0) eqn:Ep; [|reflexivity]. cbn [negb].
    destruct (hid_hw_start_ret io =? 0) eqn:Es; [|reflexivity]. cbn [negb].
    destruct (steelseries_headset_battery_register _ _ _) as [[[r h] n] evs].
    reflexivity.
  - intros Hz. unfold steelseries_headset_probe. rewrite Hz. reflexivity.
  - intros Hz Hp Hs Hn.
    unfold steelseries_headset_probe, steelseries_headset_battery_register.
    rewrite Hz, Hp, Hs, Hn. cbn.
    replace (battery_no + 1 - 1) with battery_no by lia.
    reflexivity.
Qed.

(** ** The handler, case by case *)

Lemma raw_event_cases (jiffies : Z) (headset : steelseries_headset)
  (read_buf : list byte) (size r : Z) (headset' : steelseries_headset)
  (evs : list event) :
  steelseries_headset_raw_event jiffies headset read_buf size
    = Some (r, headset', evs) ->
  r = 0 /\
  ((raw_event_decode headset read_buf size = Some ignored /\
    headset' = headset /\ evs = raw_event_dbg headset size) \/
   exists connected capacity,
     raw_event_decode headset read_buf size
       = Some (candidate connected capacity) /\
     headset' =
       fst (raw_event_rearm jiffies
              (fst (raw_event_update headset connected capacity))) /\
     evs =
       raw_event_dbg headset size ++
       snd (raw_event_update headset connected capacity) ++
       snd (raw_event_rearm jiffies
              (fst (raw_event_update headset connected capacity)))).
Proof.
  build_independent.
  intros H.
  destruct (raw_event_decode headset read_buf size) as [[|c cap]|] eqn:E.
  - unfold steelseries_headset_raw_event in H. rewrite E in H.
    injection H as <- <- <-. auto.
  - rewrite (raw_event_candidate jiffies _ _ _ _ _ E) in H.
    injection H as <- <- <-. split; [reflexivity|]. right. eauto.
  - unfold steelseries_headset_raw_event in H. rewrite E in H. discriminate.
Qed.

Lemma statuses_app (l1 l2 : list event) :
  statuses (l1 ++ l2) = statuses l1 ++ statuses l2.
Proof. build_independent. apply flat_map_app. Qed.

Lemma in_statuses (st : usb_wireless_status) (evs : list event) :
  In (ev_usb_set_wireless_status st) evs <-> In st (statuses evs).
Proof.
  build_independent. unfold statuses. rewrite in_flat_map. split.
  - intros H. eexists. split; [exact H|]. now left.
  - intros (e & He & Hst). destruct e; cbn in Hst; try contradiction.
    destruct Hst as [-> | []]. exact He.
Qed.

Lemma update_statuses (headset : steelseries_headset) (connected : bool)
  (capacity : Z) :
  statuses (snd (raw_event_update headset connected capacity)) =
  if Bool.eqb connected (headset_connected headset) then []
  else [wireless_status_of connected].
Proof.
  build_independent. unfold raw_event_update, wireless_status_of.
  destruct (Bool.eqb connected (headset_connected headset)); simpl;
    destruct (capacity =? battery_capacity headset); reflexivity.
Qed.

Lemma update_battery (headset : steelseries_headset) (connected : bool)
  (capacity : Z) :
  let h := fst (raw_event_update headset connected capacity) in
  battery h = battery headset /\
  battery_desc_name h = battery_desc_name headset.
Proof.
  build_independent. unfold raw_event_update.
  destruct (Bool.eqb connected (headset_connected headset)); simpl;
    destruct (capacity =? battery_capacity headset); simpl; auto.
Qed.

Lemma rearm_battery (jiffies : Z) (headset : steelseries_headset) :
  let h := fst (raw_event_rearm jiffies headset) in
  battery h = battery headset /\
  battery_desc_name h = battery_desc_name headset.
Proof.
  build_independent.
  unfold raw_event_rearm. destruct (removed headset); cbn; auto.
Qed.

(** What a run of the handler that decoded a candidate pair leaves. *)
Lemma raw_event_candidate_fields (jiffies : Z) (headset : steelseries_headset)
  (read_buf : list byte) (size : Z) (connected : bool) (capacity : Z) :
  raw_event_decode headset read_buf size = Some (candidate connected capacity) ->
  let h' := fst (raw_event_rearm jiffies
                   (fst (raw_event_update headset connected capacity))) in
  let evs := raw_event_dbg headset size ++
             snd (raw_event_update headset connected capacity) ++
             snd (raw_event_rearm jiffies
                    (fst (raw_event_update headset connected capacity))) in
  headset_connected h' = connected /\
  battery_capacity h' = capacity /\
  quirks h' = quirks headset /\
  removed h' = removed headset /\
  battery h' = battery headset /\
  battery_desc_name h' = battery_desc_name headset /\
  statuses evs =
    (if Bool.eqb connected (headset_connected headset) then []
     else [wireless_status_of connected]).
Proof.
  build_independent.
  intros Hdec h' evs. subst h' evs.
  destruct (raw_event_candidate_result jiffies _ _ _ _ _ Hdec)
    as (h2 & e2 & Hrun & Hc & Hb & _).
  rewrite (raw_event_candidate jiffies _ _ _ _ _ Hdec) in Hrun.
  injection Hrun as <- <-.
  destruct (update_frame headset connected capacity) as (Hr1 & _ & Hq1).
  destruct (rearm_frame jiffies
              (fst (raw_event_update headset connected capacity)))
    as (Hr2 & Hq2 & _).
  destruct (update_battery headset connected capacity) as (Hb1 & Hn1).
  destruct (rearm_battery jiffies
              (fst (raw_event_update headset connected capacity)))
    as (Hb2 & Hn2).
  repeat split; try congruence.
  rewrite !statuses_app, update_statuses.
  unfold raw_event_dbg, raw_event_rearm.
  destruct (has_quirk headset STEELSERIES_ARCTIS_1);
    destruct (removed (fst (raw_event_update headset connected capacity)));
    cbn; now rewrite app_nil_r.
Qed.

Lemma decode_stable (headset headset1 : steelseries_headset)
  (read_buf : list byte) (size : Z) (connected : bool) (capacity : Z) :
  quirks headset1 = quirks headset ->
  headset_connected headset1 = connected ->
  battery_capacity headset1 = capacity ->
  raw_event_decode headset read_buf size = Some (candidate connected capacity) ->
  raw_event_decode headset1 read_buf size
    = Some (candidate connected capacity).
Proof.
  build_independent.
  intros Hq Hc Hb. unfold raw_event_decode.
  rewrite (has_quirk_quirks _ _ _ Hq).
  destruct (has_quirk headset STEELSERIES_ARCTIS_1); [auto|].
  intros _. now rewrite Hc, Hb.
Qed.

(** X1: a report delivered a second time changes nothing and notifies
    nobody: after any well-formed report, the same report leaves the stored
    connection and capacity as they are and calls neither
    [usb_set_wireless_status] nor [power_supply_changed]. *)
Theorem repeated_report_is_silent (jiffies1 jiffies2 : Z)
  (headset : steelseries_headset) (read_buf : list byte) (size : Z) :
  report_ok read_buf size ->
  exists headset1 evs1 headset2 evs2,
    steelseries_headset_raw_event jiffies1 headset read_buf size
      = Some (0, headset1, evs1) /\
    steelseries_headset_raw_event jiffies2 headset1 read_buf size
      = Some (0, headset2, evs2) /\
    headset_connected headset2 = headset_connected headset1 /\
    battery_capacity headset2 = battery_capacity headset1 /\
    filter is_notification evs2 = [].
Proof.
  build_independent.
  intros Hok.
  destruct (has_quirk headset STEELSERIES_ARCTIS_1 && (size <? 8)) eqn:Hign.
  - apply andb_true_iff in Hign. destruct Hign as [Hq Hsize].
    apply Z.ltb_lt in Hsize.
    exists headset, (raw_event_dbg headset size),
           headset, (raw_event_dbg headset size).
    unfold raw_event_dbg. rewrite Hq.
    rewrite !(ignored_not_rearmed _ _ read_buf _ Hq Hsize). auto.
  - destruct (decode_total headset read_buf size Hok) as (c & cap & Hdec).
    { intros Hq. rewrite Hq in Hign. cbn in Hign.
      apply Z.ltb_ge in Hign. exact Hign. }
    destruct (raw_event_candidate_fields jiffies1 _ _ _ _ _ Hdec)
      as (Hc & Hb & Hq & _).
    set (h1 := fst (raw_event_rearm jiffies1
                      (fst (raw_event_update headset c cap)))) in *.
    pose proof (decode_stable headset h1 read_buf size c cap Hq Hc Hb Hdec)
      as Hdec1.
    pose proof (raw_event_candidate jiffies2 _ _ _ _ _ Hdec1) as Hrun2.
    assert (Hsame : raw_event_update h1 c cap = (h1, [])).
    { rewrite <- Hc at 1. rewrite <- Hb at 1. apply update_same. }
    rewrite Hsame in Hrun2. cbn [fst snd app] in Hrun2.
    eexists h1, _, _, _.
    split; [exact (raw_event_candidate jiffies1 _ _ _ _ _ Hdec)|].
    split; [exact Hrun2|].
    destruct (rearm_frame jiffies2 h1) as (_ & _ & Hc2 & Hb2).
    split; [exact Hc2|]. split; [exact Hb2|].
    rewrite filter_app.
    destruct (dbg_events h1 size) as (-> & _).
    destruct (rearm_events jiffies2 h1) as (-> & _). reflexivity.
Qed.

(** X2: the handler writes the stored connection, the stored capacity and
    the work, and nothing else: after any well-formed report the quirks,
    the removed flag, the battery pointer and the battery name are as they
    were before. *)
Theorem raw_event_writes_only_tracked_fields (jiffies : Z)
  (headset : steelseries_headset) (read_buf : list byte) (size : Z) :
  report_ok read_buf size ->
  exists headset' evs,
    steelseries_headset_raw_event jiffies headset read_buf size
      = Some (0, headset', evs) /\
    quirks headset' = quirks headset /\
    removed headset' = removed headset /\
    battery headset' = battery headset /\
    battery_desc_name headset' = battery_desc_name headset.
Proof.
  build_independent.
  intros Hok.
  destruct (raw_event_lifecycle jiffies headset read_buf size Hok)
    as (h' & evs & Hrun & Hr & Hq & _).
  exists h', evs. split; [exact Hrun|].
  split; [exact Hq|]. split; [exact Hr|].
  destruct (raw_event_cases _ _ _ _ _ _ _ Hrun)
    as (_ & [(_ & -> & _) | (c & cap & Hdec & -> & _)]); [auto|].
  now destruct (raw_event_candidate_fields jiffies _ _ _ _ _ Hdec)
    as (_ & _ & _ & _ & Hbat & Hname & _).
Qed.

(** ** The life of a device: what a run keeps *)

Lemma run_total (ops : list op) :
  forall w : world, Forall op_ok ops -> exists w', run w ops = Some w'.
Proof.
  induction ops as [|o ops IH]; intros w Hops.
  - exists w. reflexivity.
  - inversion Hops as [|o' ops' Ho Hops']; subst.
    assert (Hstep : exists w1, run_op w o = Some w1).
    { destruct o as [read_buf size | io | ticks | ]; cbn [run_op];
        try (eexists; reflexivity).
      destruct (raw_event_lifecycle (jiffies w) (dev w) read_buf size Ho)
        as (h' & evs & -> & _). eexists. reflexivity. }
    destruct Hstep as (w1 & Hrun1).
    destruct (IH w1 Hops') as (w' & Hrun).
    exists w'. cbn [run]. rewrite Hrun1. exact Hrun.
Qed.

Lemma run_invariant (I : world -> Prop) :
  (forall w o w1, I w -> run_op w o = Some w1 -> I w1) ->
  forall ops w w', I w -> run w ops = Some w' -> I w'.
Proof.
  intros Hstep. induction ops as [|o ops IH]; intros w w' Hw Hrun.
  - cbn in Hrun. injection Hrun as <-. exact Hw.
  - cbn [run] in Hrun. destruct (run_op w o) as [w1|] eqn:E; [|discriminate].
    exact (IH w1 w' (Hstep w o w1 Hw E) Hrun).
Qed.

(** A poll takes no lock, arms nothing and notifies nobody. *)
Lemma fetch_battery_quiet (headset : steelseries_headset) (io : usb_io) :
  let evs := steelseries_headset_fetch_battery headset io in
  statuses evs = [] /\ filter is_notification evs = [] /\
  filter is_schedule evs = [] /\ filter is_lock evs = [].
Proof.
  try clear msecs_to_jiffies.
  unfold steelseries_headset_fetch_battery,
    steelseries_headset_arctis_1_fetch_battery.
  destruct (has_quirk headset STEELSERIES_ARCTIS_1); [|cbn; auto].
  destruct (kmemdup_ok io); cbn [negb]; [|cbn; auto].
  destruct (to_size_t (raw_request_ret io) <? sizeof_battery_request).
  - cbn. auto.
  - destruct (raw_request_ret io <? 0); cbn; auto.
Qed.

Lemma repeated_quiet (l : list event) (due : list Z) :
  statuses l = [] -> filter is_notification l = [] ->
  statuses (flat_map (fun _ => l) due) = [] /\
  filter is_notification (flat_map (fun _ => l) due) = [].
Proof.
  build_independent.
  intros Hs Hn. induction due as [|e due [IHs IHn]]; [auto|].
  cbn [flat_map]. rewrite statuses_app, filter_app, Hs, Hn, IHs, IHn. auto.
Qed.

(** One operation is either a delivered report, or touches neither the
    stored pair nor the collaborators. *)
Lemma run_op_cases (w : world) (o : op) (w1 : world) :
  run_op w o = Some w1 ->
  (exists read_buf size r evs,
     o = op_raw_event read_buf size /\
     steelseries_headset_raw_event (jiffies w) (dev w) read_buf size
       = Some (r, dev w1, evs) /\
     trace w1 = trace w ++ evs) \/
  (exists evs,
     (forall read_buf size, o <> op_raw_event read_buf size) /\
     trace w1 = trace w ++ evs /\
     statuses evs = [] /\ filter is_notification evs = [] /\
     headset_connected (dev w1) = headset_connected (dev w) /\
     battery_capacity (dev w1) = battery_capacity (dev w) /\
     quirks (dev w1) = quirks (dev w) /\
     removed (dev w1) =
       removed (dev w) || match o with op_remove => true | _ => false end).
Proof.
  destruct o as [read_buf size | io | ticks | ]; cbn [run_op]; intros H.
  - left.
    destruct (steelseries_headset_raw_event (jiffies w) (dev w) read_buf size)
      as [[[r h'] evs]|] eqn:Ev; [|discriminate].
    injection H as <-. exists read_buf, size, r, evs. cbn. auto.
  - right. injection H as <-. unfold run_timer.
    destruct (partition (fun e => e <=? jiffies w) (battery_work (dev w)))
      as [due rest].
    eexists. split; [discriminate|]. split; [reflexivity|].
    unfold steelseries_headset_battery_timer_tick.
    destruct (fetch_battery_quiet (set_battery_work rest (dev w)) io)
      as (Hs & Hn & _).
    destruct (repeated_quiet _ due Hs Hn) as (Hs' & Hn').
    cbn [dev]. rewrite orb_false_r. repeat split; auto.
  - right. injection H as <-. exists [].
    cbn. rewrite app_nil_r, orb_false_r. repeat split; auto. discriminate.
  - right. injection H as <-. eexists.
    split; [discriminate|]. split; [reflexivity|].
    cbn. rewrite orb_true_r. repeat split; auto.
Qed.

Lemma alternates_snoc (l : list usb_wireless_status)
  (x d : usb_wireless_status) :
  alternates l -> last l d = d -> x <> d -> alternates (l ++ [x]).
Proof.
  build_independent.
  induction l as [|a l IH]; intros Halt Hlast Hx; [exact I|].
  destruct l as [|b t].
  - cbn in *. subst a. split; [congruence | exact I].
  - destruct Halt as [Hab Halt]. cbn [app alternates]. split; [exact Hab|].
    apply IH; assumption.
Qed.

Lemma wireless_status_of_inj (a b : bool) :
  wireless_status_of a = wireless_status_of b -> a = b.
Proof. build_independent. destruct a, b; cbn; congruence. Qed.

Lemma status_step (w : world) (o : op) (w1 : world) :
  alternates (statuses (trace w)) /\
  last (statuses (trace w)) (wireless_status_of (headset_connected (dev w)))
    = wireless_status_of (headset_connected (dev w)) /\
  ~ In USB_WIRELESS_STATUS_NA (statuses (trace w)) ->
  run_op w o = Some w1 ->
  alternates (statuses (trace w1)) /\
  last (statuses (trace w1)) (wireless_status_of (headset_connected (dev w1)))
    = wireless_status_of (headset_connected (dev w1)) /\
  ~ In USB_WIRELESS_STATUS_NA (statuses (trace w1)).
Proof.
  intros (Halt & Hlast & Hna) Hrun.
  destruct (run_op_cases w o w1 Hrun)
    as [(read_buf & size & r & evs & _ & Hev & ->)
       | (evs & _ & -> & Hs & _ & Hc & _)].
  - destruct (raw_event_cases _ _ _ _ _ _ _ Hev)
      as (_ & [(_ & Hh & ->) | (c & cap & Hdec & Hh & ->)]).
    + rewrite statuses_app, Hh.
      destruct (dbg_events (dev w) size) as (_ & _ & Hw0 & _).
      assert (Hs : statuses (raw_event_dbg (dev w) size) = []).
      { unfold raw_event_dbg.
        destruct (has_quirk (dev w) STEELSERIES_ARCTIS_1); reflexivity. }
      rewrite Hs, app_nil_r. auto.
    + destruct (raw_event_candidate_fields (jiffies w) _ _ _ _ _ Hdec)
        as (Hc & _ & _ & _ & _ & _ & Hs).
      rewrite <- Hh in Hc. rewrite statuses_app, Hs, Hc.
      destruct (Bool.eqb c (headset_connected (dev w))) eqn:E.
      * apply Bool.eqb_prop in E. rewrite app_nil_r, E. auto.
      * assert (Hne : wireless_status_of c
                      <> wireless_status_of (headset_connected (dev w))).
        { intros Heq. apply wireless_status_of_inj in Heq.
          rewrite Heq, Bool.eqb_reflx in E. discriminate. }
        split; [exact (alternates_snoc _ _ _ Halt Hlast Hne)|].
        split; [apply last_last|].
        intros Hin. apply in_app_or in Hin. destruct Hin as [Hin | [Hin | []]].
        -- exact (Hna Hin).
        -- destruct c; discriminate Hin.
  - rewrite statuses_app, Hs, app_nil_r, Hc. auto.
Qed.

(** X3: userspace is never told the same wireless status twice in a row:
    along any run that starts with no status sent yet, neighbouring calls
    of [usb_set_wireless_status] carry different statuses, the last one
    agrees with the stored connection, and the status NA is never sent. *)
Theorem wireless_status_never_repeats (w : world) (ops : list op) :
  statuses (trace w) = [] ->
  Forall op_ok ops ->
  exists w',
    run w ops = Some w' /\
    alternates (statuses (trace w')) /\
    last (statuses (trace w'))
         (wireless_status_of (headset_connected (dev w')))
      = wireless_status_of (headset_connected (dev w')) /\
    ~ In USB_WIRELESS_STATUS_NA (statuses (trace w')).
Proof.
  intros Hnone Hops.
  destruct (run_total ops w Hops) as (w' & Hrun).
  exists w'. split; [exact Hrun|].
  apply (run_invariant _ status_step ops w w'); [|exact Hrun].
  rewrite Hnone. cbn. auto.
Qed.

Lemma decode_provenance (headset : steelseries_headset)
  (read_buf : list byte) (size : Z) (connected : bool) (capacity : Z) :
  raw_event_decode headset read_buf size = Some (candidate connected capacity) ->
  capacity = battery_capacity headset \/ capacity = 100 \/
  exists b3, nth_error read_buf 3 = Some b3 /\ capacity = u8 b3.
Proof.
  build_independent. unfold raw_event_decode.
  destruct (has_quirk headset STEELSERIES_ARCTIS_1).
  - destruct (size <? 8); [discriminate|].
    destruct (nth_error read_buf 2) as [b2|]; [|discriminate].
    destruct (u8 b2 =? 1).
    + intros H. injection H as _ <-. auto.
    + destruct (nth_error read_buf 3) as [b3|]; [|discriminate].
      intros H. injection H as _ <-. eauto.
  - intros H. injection H as _ <-. auto.
Qed.

(** X4: the stored capacity is never invented: after any run it is the
    capacity the run started with, or the placeholder 100, or the byte at
    offset 3 of one of the delivered reports; if it started as a byte it is
    still one. *)
Theorem battery_capacity_provenance (w : world) (ops : list op) :
  Forall op_ok ops ->
  exists w',
    run w ops = Some w' /\
    (battery_capacity (dev w') = battery_capacity (dev w) \/
     battery_capacity (dev w') = 100 \/
     exists read_buf size b3,
       In (op_raw_event read_buf size) ops /\
       nth_error read_buf 3 = Some b3 /\
       battery_capacity (dev w') = u8 b3) /\
    (0 <= battery_capacity (dev w) < 256 ->
     0 <= battery_capacity (dev w') < 256).
Proof.
  intros Hops.
  destruct (run_total ops w Hops) as (w' & Hrun).
  exists w'. split; [exact Hrun|].
  assert (Hprov :
    battery_capacity (dev w') = battery_capacity (dev w) \/
    battery_capacity (dev w') = 100 \/
    exists read_buf size b3,
      In (op_raw_event read_buf size) ops /\
      nth_error read_buf 3 = Some b3 /\
      battery_capacity (dev w') = u8 b3).
  { clear Hops. revert w Hrun.
    induction ops as [|o ops IH]; intros w Hrun.
    - cbn in Hrun. injection Hrun as <-. auto.
    - cbn [run] in Hrun.
      destruct (run_op w o) as [w1|] eqn:E; [|discriminate].
      assert (Hstep :
        battery_capacity (dev w1) = battery_capacity (dev w) \/
        battery_capacity (dev w1) = 100 \/
        exists read_buf size b3,
          o = op_raw_event read_buf size /\
          nth_error read_buf 3 = Some b3 /\
          battery_capacity (dev w1) = u8 b3).
      { destruct (run_op_cases w o w1 E)
          as [(read_buf & size & r & evs & -> & Hev & _)
             | (evs & _ & _ & _ & _ & _ & Hb & _)]; [|auto].
        destruct (raw_event_cases _ _ _ _ _ _ _ Hev)
          as (_ & [(_ & -> & _) | (c & cap & Hdec & Hh & _)]); [auto|].
        destruct (raw_event_candidate_fields (jiffies w) _ _ _ _ _ Hdec)
          as (_ & Hb & _).
        rewrite <- Hh in Hb. rewrite Hb.
        destruct (decode_provenance _ _ _ _ _ Hdec)
          as [H | [H | (b3 & H3 & H)]]; [auto | auto |].
        right. right. exists read_buf, size, b3. auto. }
      destruct (IH w1 Hrun) as [H | [H | (buf & sz & b3 & Hin & H3 & H)]].
      + rewrite H.
        destruct Hstep as [H1 | [H1 | (buf & sz & b3 & -> & H3 & H1)]];
          [auto | auto |].
        right. right. exists buf, sz, b3. cbn [In]. auto.
      + auto.
      + right. right. exists buf, sz, b3. cbn [In]. auto. }
  split; [exact Hprov|].
  intros Hrange.
  destruct Hprov as [-> | [-> | (buf & sz & b3 & _ & _ & ->)]];
    [exact Hrange | lia | apply u8_range].
Qed.

(** X5: the removed flag is set by teardown and by nothing else, and no
    operation changes the quirks: after any run the device is removed
    exactly when it was so before or the run contains a remove. *)
Theorem removed_only_by_remove (w : world) (ops : list op) :
  Forall op_ok ops ->
  exists w',
    run w ops = Some w' /\
    quirks (dev w') = quirks (dev w) /\
    (removed (dev w') = true
     <-> removed (dev w) = true \/ In op_remove ops).
Proof.
  intros Hops.
  destruct (run_total ops w Hops) as (w' & Hrun).
  exists w'. split; [exact Hrun|].
  clear Hops. revert w Hrun.
  induction ops as [|o ops IH]; intros w Hrun.
  - cbn in Hrun. injection Hrun as <-. cbn [In]. tauto.
  - cbn [run] in Hrun.
    destruct (run_op w o) as [w1|] eqn:E; [|discriminate].
    destruct (IH w1 Hrun) as (Hq & Hr).
    assert (Hstep :
      quirks (dev w1) = quirks (dev w) /\
      (removed (dev w1) = true <-> removed (dev w) = true \/ o = op_remove)).
    { destruct (run_op_cases w o w1 E)
        as [(read_buf & size & r & evs & -> & Hev & _)
           | (evs & _ & _ & _ & _ & _ & _ & Hq1 & Hr1)].
      - destruct (raw_event_cases _ _ _ _ _ _ _ Hev)
          as (_ & [(_ & -> & _) | (c & cap & Hdec & Hh & _)]).
        + split; [reflexivity|]. split; [auto|].
          intros [H | H]; [exact H | discriminate H].
        + destruct (raw_event_candidate_fields (jiffies w) _ _ _ _ _ Hdec)
            as (_ & _ & Hq1 & Hr1 & _).
          rewrite <- Hh in Hq1, Hr1. rewrite Hr1. split; [exact Hq1|].
          split; [auto|]. intros [H | H]; [exact H | discriminate H].
      - split; [exact Hq1|]. rewrite Hr1.
        destruct o; rewrite ?orb_false_r, ?orb_true_r; split; auto;
          intros [H | H]; auto; discriminate H. }
    destruct Hstep as (Hq1 & Hr1).
    split; [congruence|].
    rewrite Hr, Hr1. cbn [In]. split.
    + intros [[H | H] | H]; auto.
    + intros [H | [H | H]]; auto.
Qed.

(** ** More on the battery query *)

(** X6: a poll sends one transfer exactly when the device has the Arctis 1
    quirk and the transfer buffer was allocated, and none otherwise; the
    buffer is freed exactly when it was allocated; whatever the outcome, a
    poll takes no lock, arms no work and notifies nobody. *)
Theorem fetch_battery_one_transfer (headset : steelseries_headset)
  (io : usb_io) :
  let evs := steelseries_headset_battery_timer_tick headset io in
  List.length (filter is_raw_request evs) =
    (if has_quirk headset STEELSERIES_ARCTIS_1 && kmemdup_ok io
     then 1 else 0)%nat /\
  List.length (filter is_kfree evs) =
    (if has_quirk headset STEELSERIES_ARCTIS_1 && kmemdup_ok io
     then 1 else 0)%nat /\
  filter is_lock evs = [] /\ filter is_schedule evs = [] /\
  filter is_notification evs = [].
Proof.
  try clear msecs_to_jiffies.
  destruct (fetch_battery_quiet headset io) as (_ & Hn & Hs & Hl).
  cbv zeta. unfold steelseries_headset_battery_timer_tick.
  split; [|split; [|auto]];
    unfold steelseries_headset_fetch_battery,
      steelseries_headset_arctis_1_fetch_battery;
    (destruct (has_quirk headset STEELSERIES_ARCTIS_1); [|reflexivity]);
    (destruct (kmemdup_ok io); cbn [negb andb]; [|reflexivity]);
    (destruct (to_size_t (raw_request_ret io) <? sizeof_battery_request);
     [reflexivity|]);
    destruct (raw_request_ret io <? 0); reflexivity.
Qed.

(** ** More on the attach *)

Lemma battery_register_shape (battery_no : Z) (io : probe_io)
  (headset : steelseries_headset) :
  exists r h evs,
    steelseries_headset_battery_register battery_no io headset
    = (r, h, battery_no + 1,
       ev_devm_kasprintf battery_name_fmt battery_no :: evs) /\
    battery_desc_name h =
      (if devm_kasprintf_ok io then Some battery_no else None) /\
    (filter is_raw_request evs <> [] ->
     devm_kasprintf_ok io = true /\
     IS_ERR (devm_power_supply_register_ret io) = false).
Proof.
  try clear msecs_to_jiffies.
  unfold steelseries_headset_battery_register.
  replace (battery_no + 1 - 1) with battery_no by lia.
  destruct (devm_kasprintf_ok io); cbn [negb].
  - cbn [battery set_battery].
    destruct (IS_ERR (devm_power_supply_register_ret io)).
    + eexists _, _, _. split; [reflexivity|]. cbn. split; [reflexivity|].
      intros H. exfalso. apply H. reflexivity.
    + eexists _, _, _. cbn [app]. split; [reflexivity|]. cbn. auto.
  - eexists _, _, _. split; [reflexivity|]. cbn. split; [reflexivity|].
    intros H. exfalso. apply H. reflexivity.
Qed.

(** X7: while the static counter is inside the range of [int] and below
    its last value, the probe returns 0 exactly when the state allocation,
    the parse and the start of the hardware all succeed; the battery
    registration is attempted (a name is asked for and the counter advanced
    by one) in exactly that case, and a battery query is sent only then. *)
Theorem probe_registers_iff_started (battery_no : Z) (io : probe_io)
  (driver_data : Z) :
  INT_MIN <= battery_no < INT_MAX ->
  let '(ret, drvdata, battery_no', evs) :=
    steelseries_headset_probe battery_no io driver_data in
  (ret = 0 <-> devm_kzalloc_ok io = true /\ hid_parse_ret io = 0 /\
               hid_hw_start_ret io = 0) /\
  (filter is_name_allocation evs <> [] <-> ret = 0) /\
  battery_no' = (if ret =? 0 then battery_no + 1 else battery_no) /\
  (filter is_raw_request evs <> [] -> ret = 0) /\
  (drvdata = None <-> devm_kzalloc_ok io = false).
Proof.
  try clear msecs_to_jiffies.
  intros _.
  unfold steelseries_headset_probe.
  destruct (devm_kzalloc_ok io); cbn [negb].
  2:{ unfold ENOMEM. cbn.
      repeat split; intros; try reflexivity; try discriminate;
        intuition (try discriminate; try lia; try congruence). }
  destruct (hid_parse_ret io =? 0) eqn:Ep; cbn [negb].
  2:{ rewrite Ep. apply Z.eqb_neq in Ep. cbn.
      repeat split; intros; try reflexivity; try discriminate;
        intuition (try discriminate; try lia; try congruence). }
  apply Z.eqb_eq in Ep.
  destruct (hid_hw_start_ret io =? 0) eqn:Es; cbn [negb].
  2:{ rewrite Es. apply Z.eqb_neq in Es. cbn.
      repeat split; intros; try reflexivity; try discriminate;
        intuition (try discriminate; try lia; try congruence). }
  destruct (battery_register_shape battery_no io
              (set_quirks driver_data zeroed_headset))
    as (r & h & evs & -> & _ & _).
  rewrite Es. apply Z.eqb_eq in Es. cbn.
  repeat split; intros; try reflexivity; try discriminate; auto.
Qed.

Lemma probe_name (battery_no : Z) (io : probe_io) (driver_data : Z) :
  let '(_, drvdata, battery_no', _) :=
    steelseries_headset_probe battery_no io driver_data in
  battery_no <= battery_no' /\
  forall h n,
    drvdata = Some h -> battery_desc_name h = Some n ->
    n = battery_no /\ battery_no' = battery_no + 1.
Proof.
  try clear msecs_to_jiffies.
  unfold steelseries_headset_probe.
  destruct (devm_kzalloc_ok io); cbn [negb];
    [|split; [lia | discriminate]].
  destruct (hid_parse_ret io =? 0); cbn [negb].
  2:{ split; [lia|]. intros h n H. injection H as <-. discriminate. }
  destruct (hid_hw_start_ret io =? 0); cbn [negb].
  2:{ split; [lia|]. intros h n H. injection H as <-. discriminate. }
  destruct (battery_register_shape battery_no io
              (set_quirks driver_data zeroed_headset))
    as (r & h & evs & -> & Hname & _).
  split; [lia|]. intros h' n H. injection H as <-. rewrite Hname.
  destruct (devm_kasprintf_ok io); [|discriminate].
  intros Hn. injection Hn as <-. auto.
Qed.

Lemma probe_many_names (devices : list (probe_io * Z)) :
  forall battery_no : Z,
    Forall (fun n => battery_no <= n)
      (battery_names (probe_many battery_no devices)) /\
    NoDup (battery_names (probe_many battery_no devices)).
Proof.
  try clear msecs_to_jiffies.
  induction devices as [|[io dd] rest IH]; intros battery_no.
  - cbn. split; constructor.
  - cbn [probe_many].
    pose proof (probe_name battery_no io dd) as Hp.
    destruct (steelseries_headset_probe battery_no io dd)
      as [[[r drv] no'] evs].
    destruct Hp as (Hle & Hname).
    destruct (IH no') as (Hge & Hnd).
    unfold battery_names in *. cbn [flat_map].
    destruct drv as [h|]; [|cbn [app]].
    + destruct (battery_desc_name h) as [n|] eqn:En; cbn [app].
      * destruct (Hname h n eq_refl En) as (-> & ->).
        split.
        -- constructor; [lia|].
           eapply Forall_impl; [|exact Hge]. cbn. intros; lia.
        -- constructor; [|exact Hnd].
           intros Hin. rewrite Forall_forall in Hge.
           specialize (Hge _ Hin). cbn in Hge. lia.
      * split; [|exact Hnd].
        eapply Forall_impl; [|exact Hge]. cbn. intros; lia.
    + split; [|exact Hnd].
      eapply Forall_impl; [|exact Hge]. cbn. intros; lia.
Qed.

(** X8: batteries never share a name: for devices probed one after the
    other, while the counter stays inside the range of [int], the numbers
    put in the battery names are pairwise different and none is below the
    counter the first probe started with, whichever probes fail. *)
Theorem battery_names_unique (battery_no : Z)
  (devices : list (probe_io * Z)) :
  0 <= battery_no ->
  battery_no + Z.of_nat (List.length devices) <= INT_MAX ->
  NoDup (battery_names (probe_many battery_no devices)) /\
  Forall (fun n => battery_no <= n)
    (battery_names (probe_many battery_no devices)).
Proof.
  try clear msecs_to_jiffies.
  intros _ _. destruct (probe_many_names devices battery_no). auto.
Qed.

(** X9: a device whose probe succeeded in full starts unarmed, not
    removed, disconnected and with the placeholder capacity 100, so that a
    report saying that the headset is absent (at least 8 bytes, 0x01 at
    offset 2) changes nothing and notifies nobody. *)
Theorem probed_device_quiet_while_absent (battery_no : Z) (io : probe_io)
  (driver_data : Z) :
  devm_kzalloc_ok io = true ->
  hid_parse_ret io = 0 ->
  hid_hw_start_ret io = 0 ->
  devm_kasprintf_ok io = true ->
  IS_ERR (devm_power_supply_register_ret io) = false ->
  exists evs,
    steelseries_headset_probe battery_no io driver_data
    = (0,
       Some (mk_headset driver_data [] false (Some battery_no)
               (devm_power_supply_register_ret io) 100 false),
       battery_no + 1, evs) /\
    forall (jiffies : Z) (read_buf : list byte) (size : Z) (b2 : byte),
      8 <= size -> nth_error read_buf 2 = Some b2 -> u8 b2 = 0x01 ->
      exists headset' evs',
        steelseries_headset_raw_event jiffies
          (mk_headset driver_data [] false (Some battery_no)
             (devm_power_supply_register_ret io) 100 false)
          read_buf size
        = Some (0, headset', evs') /\
        headset_connected headset' = false /\
        battery_capacity headset' = 100 /\
        filter is_notification evs' = [].
Proof.
  intros Hz Hp Hs Hn Hr. eexists. split.
  - unfold steelseries_headset_probe, steelseries_headset_battery_register.
    rewrite Hz, Hp, Hs, Hn. cbn [negb Z.eqb]. cbn [battery set_battery].
    rewrite Hr. replace (battery_no + 1 - 1) with battery_no by lia.
    cbn. reflexivity.
  - intros jiffies read_buf size b2 Hsize Hb2 Hv.
    set (h := mk_headset driver_data [] false (Some battery_no)
                (devm_power_supply_register_ret io) 100 false).
    assert (Hdec : raw_event_decode h read_buf size
                   = Some (candidate (headset_connected h)
                             (battery_capacity h))).
    { unfold raw_event_decode.
      destruct (has_quirk h STEELSERIES_ARCTIS_1); [|reflexivity].
      destruct (size <? 8) eqn:E; [apply Z.ltb_lt in E; lia|].
      rewrite Hb2, Hv. reflexivity. }
    pose proof (raw_event_candidate jiffies _ _ _ _ _ Hdec) as Hrun.
    rewrite update_same in Hrun. cbn [fst snd app] in Hrun.
    eexists _, _. split; [exact Hrun|].
    destruct (rearm_frame jiffies h) as (_ & _ & Hc & Hb).
    split; [exact Hc|]. split; [exact Hb|].
    rewrite filter_app.
    destruct (dbg_events h size) as (-> & _).
    destruct (rearm_events jiffies h) as (-> & _). reflexivity.
Qed.

(** X10: when the allocation of the battery name fails, the probe still
    returns 0 but leaves no battery registered and the capacity at 0, not
    at the placeholder; on an Arctis 1 device the first report saying that
    the headset is absent then raises the capacity to 100 and calls
    [power_supply_changed] although [battery] is still NULL. *)
Theorem unregistered_battery_is_notified (battery_no : Z) (io : probe_io)
  (driver_data jiffies : Z) (read_buf : list byte) (size : Z) (b2 : byte) :
  devm_kzalloc_ok io = true ->
  hid_parse_ret io = 0 ->
  hid_hw_start_ret io = 0 ->
  devm_kasprintf_ok io = false ->
  Z.land driver_data STEELSERIES_ARCTIS_1 <> 0 ->
  8 <= size -> nth_error read_buf 2 = Some b2 -> u8 b2 = 0x01 ->
  exists headset evs headset' evs',
    steelseries_headset_probe battery_no io driver_data
      = (0, Some headset, battery_no + 1, evs) /\
    battery headset = NULL /\ battery_capacity headset = 0 /\
    steelseries_headset_raw_event jiffies headset read_buf size
      = Some (0, headset', evs') /\
    In ev_power_supply_changed evs' /\
    battery headset' = NULL /\ battery_capacity headset' = 100.
Proof.
  intros Hz Hp Hs Hn Hq Hsize Hb2 Hv.
  set (h := set_quirks driver_data zeroed_headset).
  assert (Hdec : raw_event_decode h read_buf size
                 = Some (candidate false 100)).
  { unfold raw_event_decode, has_quirk. cbn [quirks h set_quirks].
    apply Z.eqb_neq in Hq. rewrite Hq. cbn [negb].
    destruct (size <? 8) eqn:E; [apply Z.ltb_lt in E; lia|].
    rewrite Hb2, Hv. reflexivity. }
  destruct (raw_event_candidate_result jiffies _ _ _ _ _ Hdec)
    as (h' & evs' & Hrun & _ & Hb & _ & Hpsc).
  eexists h, _, h', evs'.
  split.
  { unfold steelseries_headset_probe, steelseries_headset_battery_register.
    rewrite Hz, Hp, Hs, Hn. cbn. reflexivity. }
  split; [reflexivity|]. split; [reflexivity|].
  split; [exact Hrun|].
  split.
  { apply (in_filter_singleton is_power_supply_changed _ evs');
      [reflexivity | exact Hpsc]. }
  split; [|exact Hb].
  destruct (raw_event_cases _ _ _ _ _ _ _ Hrun)
    as (_ & [(Hd & _) | (c & cap & Hdec' & -> & _)]).
  - rewrite Hdec in Hd. discriminate.
  - now destruct (raw_event_candidate_fields jiffies _ _ _ _ _ Hdec')
      as (_ & _ & _ & _ & Hbat & _).
Qed.

(** X14: the battery query of the attach is sent exactly when the state
    allocation, the parse, the start, the name allocation and the
    registration of the power supply all succeed, the matched identity
    carries the Arctis 1 quirk and the transfer buffer is allocated; then it
    is sent once. *)
Theorem probe_initial_query (battery_no : Z) (io : probe_io)
  (driver_data : Z) :
  List.length
    (filter is_raw_request
       (snd (steelseries_headset_probe battery_no io driver_data))) =
  if devm_kzalloc_ok io && (hid_parse_ret io =? 0)
     && (hid_hw_start_ret io =? 0) && devm_kasprintf_ok io
     && negb (IS_ERR (devm_power_supply_register_ret io))
     && negb (Z.land driver_data STEELSERIES_ARCTIS_1 =? 0)
     && kmemdup_ok (fetch_io io)
  then 1%nat else 0%nat.
Proof.
  try clear msecs_to_jiffies.
  unfold steelseries_headset_probe.
  destruct (devm_kzalloc_ok io); cbn [negb andb]; [|reflexivity].
  destruct (hid_parse_ret io =? 0); cbn [negb andb]; [|reflexivity].
  destruct (hid_hw_start_ret io =? 0); cbn [negb andb]; [|reflexivity].
  unfold steelseries_headset_battery_register.
  destruct (devm_kasprintf_ok io); cbn [negb andb]; [|reflexivity].
  cbn [battery set_battery].
  destruct (IS_ERR (devm_power_supply_register_ret io)) eqn:Eerr;
    cbn [negb andb].
  { destruct (PTR_ERR (devm_power_supply_register_ret io) <? 0);
      reflexivity. }
  cbv [snd]. change (0 <? 0) with false. cbv iota.
  rewrite !filter_app, !length_app.
  pose proof (fetch_battery_one_transfer
                (set_battery_work []
                   (set_battery (devm_power_supply_register_ret io)
                      (set_battery_capacity 100
                         (set_battery_desc_name (Some (battery_no + 1 - 1))
                            (set_quirks driver_data zeroed_headset)))))
                (fetch_io io)) as (Hone & _).
  unfold steelseries_headset_battery_timer_tick in Hone.
  rewrite Hone. cbn [filter is_raw_request List.length Nat.add].
  rewrite Nat.add_0_r. reflexivity.
Qed.

Lemma update_set_removed (headset : steelseries_headset) (connected : bool)
  (capacity : Z) (b : bool) :
  raw_event_update (set_removed b headset) connected capacity =
  (set_removed b (fst (raw_event_update headset connected capacity)),
   snd (raw_event_update headset connected capacity)).
Proof.
  build_independent. unfold raw_event_update.
  change (headset_connected (set_removed b headset))
    with (headset_connected headset).
  destruct (Bool.eqb connected (headset_connected headset)); simpl;
    destruct (capacity =? battery_capacity headset); reflexivity.
Qed.

(** X15: the removed flag gates the arming and nothing else: on a removed
    device a report decodes, updates the stored pair and notifies the
    collaborators exactly as on a live one; only the work is left alone. *)
Theorem removed_gates_only_arming (jiffies : Z)
  (headset : steelseries_headset) (read_buf : list byte) (size r : Z)
  (headset' : steelseries_headset) (evs : list event) :
  steelseries_headset_raw_event jiffies headset read_buf size
    = Some (r, headset', evs) ->
  exists headset'' evs'',
    steelseries_headset_raw_event jiffies (set_removed true headset)
      read_buf size = Some (r, headset'', evs'') /\
    headset_connected headset'' = headset_connected headset' /\
    battery_capacity headset'' = battery_capacity headset' /\
    filter is_notification evs'' = filter is_notification evs /\
    battery_work headset'' = battery_work headset /\
    filter is_schedule evs'' = [].
Proof.
  intros Hrun.
  destruct (raw_event_cases _ _ _ _ _ _ _ Hrun)
    as (-> & [(Hdec & -> & ->) | (c & cap & Hdec & -> & ->)]).
  - exists (set_removed true headset), (raw_event_dbg headset size).
    unfold steelseries_headset_raw_event.
    change (raw_event_decode (set_removed true headset) read_buf size)
      with (raw_event_decode headset read_buf size).
    change (raw_event_dbg (set_removed true headset) size)
      with (raw_event_dbg headset size).
    rewrite Hdec. repeat split; auto. apply dbg_events.
  - set (h1 := fst (raw_event_update headset c cap)).
    set (e1 := snd (raw_event_update headset c cap)).
    exists (set_removed true h1),
           (raw_event_dbg headset size ++ e1
            ++ [ev_spin_lock_irqsave; ev_spin_unlock_irqrestore]).
    split.
    { unfold steelseries_headset_raw_event.
      change (raw_event_decode (set_removed true headset) read_buf size)
        with (raw_event_decode headset read_buf size).
      change (raw_event_dbg (set_removed true headset) size)
        with (raw_event_dbg headset size).
      rewrite Hdec, update_set_removed. fold h1 e1.
      unfold raw_event_rearm. reflexivity. }
    destruct (rearm_frame jiffies h1) as (_ & _ & Hc & Hb).
    destruct (rearm_events jiffies h1) as (Hn & _).
    destruct (update_frame headset c cap) as (_ & Hw & _). fold h1 in Hw.
    destruct (update_events headset c cap) as (_ & _ & Hs & _).
    fold e1 in Hs.
    destruct (dbg_events headset size) as (_ & _ & _ & _ & Hs0 & _).
    split; [symmetry; exact Hc|]. split; [symmetry; exact Hb|].
    split.
    { rewrite !filter_app, Hn. reflexivity. }
    split; [exact Hw|].
    rewrite !filter_app, Hs0, Hs. reflexivity.
Qed.

(** ** The properties userspace reads *)

Section PowerSupplyFacts.

Variable POWER_SUPPLY_STATUS_UNKNOWN : Z.
Variable POWER_SUPPLY_STATUS_DISCHARGING : Z.
Variable POWER_SUPPLY_SCOPE_DEVICE : Z.

Local Abbreviation get_property :=
  (steelseries_headset_battery_get_property POWER_SUPPLY_STATUS_UNKNOWN
     POWER_SUPPLY_STATUS_DISCHARGING POWER_SUPPLY_SCOPE_DEVICE).

(** X11: the property getter answers exactly the properties the driver
    advertises: a property is in [steelseries_headset_battery_props] if and
    only if the getter returns 0 for it; any other property gets -EINVAL
    and leaves the value untouched; presence is always 1 and the scope
    always the device, whatever the state. *)
Theorem get_property_answers_advertised (headset : steelseries_headset)
  (psp : power_supply_property) (val : Z) :
  (In psp steelseries_headset_battery_props
   <-> fst (get_property headset psp val) = 0) /\
  (~ In psp steelseries_headset_battery_props
   -> get_property headset psp val = (- EINVAL, val)) /\
  get_property headset POWER_SUPPLY_PROP_PRESENT val = (0, 1) /\
  get_property headset POWER_SUPPLY_PROP_SCOPE val
    = (0, POWER_SUPPLY_SCOPE_DEVICE).
Proof.
  try clear BITS_PER_LONG; try clear msecs_to_jiffies.
  unfold steelseries_headset_battery_props.
  split; [|split; [|split; reflexivity]].
  - destruct psp; cbn; split; intros H; auto; try discriminate;
      repeat (destruct H as [H | H]; try discriminate); contradiction.
  - destruct psp; cbn; intros H; try reflexivity; exfalso; apply H; auto.
Qed.

(** X12: what userspace reads follows the last report: after an Arctis 1
    report of at least 8 bytes, the capacity property is 100 if the byte at
    offset 2 is 0x01 and the byte at offset 3 otherwise, and the status
    property is unknown in the first case and discharging in the second. *)
Theorem get_property_after_report (jiffies : Z)
  (headset : steelseries_headset) (read_buf : list byte) (size : Z)
  (b2 b3 : byte) (val : Z) :
  has_quirk headset STEELSERIES_ARCTIS_1 = true ->
  8 <= size ->
  nth_error read_buf 2 = Some b2 ->
  nth_error read_buf 3 = Some b3 ->
  exists headset' evs,
    steelseries_headset_raw_event jiffies headset read_buf size
      = Some (0, headset', evs) /\
    get_property headset' POWER_SUPPLY_PROP_CAPACITY val
      = (0, if u8 b2 =? 0x01 then 100 else u8 b3) /\
    get_property headset' POWER_SUPPLY_PROP_STATUS val
      = (0, if u8 b2 =? 0x01 then POWER_SUPPLY_STATUS_UNKNOWN
            else POWER_SUPPLY_STATUS_DISCHARGING).
Proof.
  try clear BITS_PER_LONG.
  intros Hq Hsize Hb2 Hb3.
  assert (Hdec : raw_event_decode headset read_buf size
                 = Some (if u8 b2 =? 0x01 then candidate false 100
                         else candidate true (u8 b3))).
  { unfold raw_event_decode. rewrite Hq.
    destruct (size <? 8) eqn:E; [apply Z.ltb_lt in E; lia|].
    rewrite Hb2. destruct (u8 b2 =? 1); [reflexivity|].
    rewrite Hb3. reflexivity. }
  destruct (u8 b2 =? 1);
    destruct (raw_event_candidate_result jiffies _ _ _ _ _ Hdec)
      as (h' & evs & Hrun & Hc & Hb & _);
    exists h', evs; (split; [exact Hrun|]);
    unfold steelseries_headset_battery_get_property; rewrite Hc, Hb; auto.
Qed.

End PowerSupplyFacts.

End Driver.

(** ** The theorems at sample inputs *)

Lemma sample_ops_ok : Forall op_ok sample_ops.
Proof.
  unfold sample_ops.
  apply Forall_cons; [unfold op_ok, report_ok; simpl; lia|].
  apply Forall_cons; [exact I|].
  apply Forall_cons; [exact I|].
  apply Forall_cons; [unfold op_ok, report_ok; simpl; lia|].
  apply Forall_nil.
Defined.

Lemma no_poll_armed_after_remove_witness :
  Forall op_ok sample_ops /\
  exists w',
    run 64 msecs_to_jiffies_hz1000 fresh_world (op_remove :: sample_ops)
      = Some w' /\
    removed (dev w') = true /\ battery_work (dev w') = [] /\
    exists evs,
      trace w' =
        trace fresh_world
        ++ snd (steelseries_headset_remove (dev fresh_world)) ++ evs /\
      filter is_schedule evs = [] /\ filter is_raw_request evs = [].
Proof.
  split; [exact sample_ops_ok|].
  apply (no_poll_armed_after_remove 64 msecs_to_jiffies_hz1000 fresh_world
           sample_ops).
  exact sample_ops_ok.
Defined.

Lemma arctis_1_report_headset_absent_witness :
  has_quirk arctis_1_headset STEELSERIES_ARCTIS_1 = true /\
  report_ok report_absent 8 /\
  exists headset' evs,
    steelseries_headset_raw_event msecs_to_jiffies_hz1000 0
      (set_headset_connected true (set_battery_capacity 77 arctis_1_headset))
      report_absent 8
      = Some (0, headset', evs) /\
    headset_connected headset' = false /\
    battery_capacity headset' = 100.
Proof.
  split; [reflexivity|].
  split; [unfold report_ok; simpl; lia|].
  apply (arctis_1_report_headset_absent msecs_to_jiffies_hz1000 0
           (set_headset_connected true
              (set_battery_capacity 77 arctis_1_headset))
           report_absent 8 x01).
  - reflexivity.
  - lia.
  - unfold report_ok; simpl; lia.
  - reflexivity.
  - reflexivity.
Defined.

Lemma arctis_1_report_headset_present_witness :
  has_quirk arctis_1_headset STEELSERIES_ARCTIS_1 = true /\
  report_ok report_present_77 8 /\
  exists headset' evs,
    steelseries_headset_raw_event msecs_to_jiffies_hz1000 0 arctis_1_headset
      report_present_77 8
      = Some (0, headset', evs) /\
    headset_connected headset' = true /\
    battery_capacity headset' = 77.
Proof.
  split; [reflexivity|].
  split; [unfold report_ok; simpl; lia|].
  apply (arctis_1_report_headset_present msecs_to_jiffies_hz1000 0
           arctis_1_headset report_present_77 8 x00 x4d).
  - reflexivity.
  - lia.
  - unfold report_ok; simpl; lia.
  - reflexivity.
  - reflexivity.
  - vm_compute. discriminate.
Defined.

Lemma arctis_1_short_report_ignored_witness :
  has_quirk arctis_1_headset STEELSERIES_ARCTIS_1 = true /\
  exists evs,
    steelseries_headset_raw_event msecs_to_jiffies_hz1000 0 arctis_1_headset
      report_short 7
      = Some (0, arctis_1_headset, evs) /\
    filter is_notification evs = [].
Proof.
  split; [reflexivity|].
  apply (arctis_1_short_report_ignored msecs_to_jiffies_hz1000 0
           arctis_1_headset report_short 7).
  - reflexivity.
  - lia.
Defined.

Lemma raw_event_notifies_iff_changed_witness :
  raw_event_decode arctis_1_headset report_present_77 8
    = Some (candidate true 77) /\
  exists headset' evs,
    steelseries_headset_raw_event msecs_to_jiffies_hz1000 0 arctis_1_headset
      report_present_77 8
      = Some (0, headset', evs) /\
    ((exists st, In (ev_usb_set_wireless_status st) evs)
       <-> true <> headset_connected arctis_1_headset) /\
    (In ev_power_supply_changed evs
       <-> 77 <> battery_capacity arctis_1_headset) /\
    (headset_connected headset' <> headset_connected arctis_1_headset
       <-> exists st, In (ev_usb_set_wireless_status st) evs) /\
    (battery_capacity headset' <> battery_capacity arctis_1_headset
       <-> In ev_power_supply_changed evs) /\
    (List.length (filter is_wireless_status evs) <= 1)%nat /\
    (List.length (filter is_power_supply_changed evs) <= 1)%nat.
Proof.
  split; [reflexivity|].
  apply (raw_event_notifies_iff_changed msecs_to_jiffies_hz1000 0
           arctis_1_headset report_present_77 8 true 77).
  reflexivity.
Defined.

(** C6 as stated fails: an Arctis 1 device that is not removed receives a
    well-formed report of 7 bytes; the handler returns after its debug
    message, takes no lock and arms nothing. *)
Lemma short_report_not_rearmed :
  report_ok report_short 7 /\
  removed arctis_1_headset = false /\
  steelseries_headset_raw_event msecs_to_jiffies_hz1000 0 arctis_1_headset
    report_short 7
  = Some (0, arctis_1_headset,
          [ev_hid_dbg "Parsing raw event for Arctis 1 headset (len: %d)\n"
             [arg_int 7]]) /\
  ~ rearm_attempted msecs_to_jiffies_hz1000 0 arctis_1_headset
      (steelseries_headset_raw_event msecs_to_jiffies_hz1000 0
         arctis_1_headset report_short 7).
Proof.
  split; [unfold report_ok; simpl; lia|].
  split; [reflexivity|].
  split; [reflexivity|].
  intros (h' & pre & Hrun & _ & Hwork).
  vm_compute in Hrun. injection Hrun as Hh Hevs.
  subst h'. vm_compute in Hwork. discriminate Hwork.
Qed.

Lemma raw_event_rearms_unless_ignored_witness :
  report_ok report_short 7 /\
  (rearm_attempted msecs_to_jiffies_hz1000 0 arctis_1_headset
     (steelseries_headset_raw_event msecs_to_jiffies_hz1000 0
        arctis_1_headset report_short 7)
   <-> ~ (has_quirk arctis_1_headset STEELSERIES_ARCTIS_1 = true /\ 7 < 8)) /\
  (has_quirk arctis_1_headset STEELSERIES_ARCTIS_1 = true -> 7 < 8 ->
   exists evs,
     steelseries_headset_raw_event msecs_to_jiffies_hz1000 0
       arctis_1_headset report_short 7
       = Some (0, arctis_1_headset, evs) /\
     evs = [ev_hid_dbg "Parsing raw event for Arctis 1 headset (len: %d)\n"
              [arg_int 7]] /\
     filter is_lock evs = [] /\ filter is_schedule evs = []).
Proof.
  split; [unfold report_ok; simpl; lia|].
  apply (raw_event_rearms_unless_ignored msecs_to_jiffies_hz1000 0
           arctis_1_headset report_short 7).
  unfold report_ok; simpl; lia.
Defined.

Lemma at_most_one_poll_armed_witness :
  (List.length (battery_work (dev fresh_world)) <= 1)%nat /\
  Forall op_ok sample_ops /\
  exists w',
    run 64 msecs_to_jiffies_hz1000 fresh_world sample_ops = Some w' /\
    (List.length (battery_work (dev w')) <= 1)%nat.
Proof.
  split; [simpl; lia|].
  split; [exact sample_ops_ok|].
  destruct (at_most_one_poll_armed 64 msecs_to_jiffies_hz1000 fresh_world
              sample_ops) as (w' & Hrun & Hlen & _).
  - simpl; lia.
  - exact sample_ops_ok.
  - exists w'. split; assumption.
Defined.

Lemma fetch_battery_transfer_witness :
  has_quirk arctis_1_headset STEELSERIES_ARCTIS_1 = true /\
  kmemdup_ok io_stalled = true /\
  INT_MIN <= raw_request_ret io_stalled <= INT_MAX /\
  exists ret evs,
    steelseries_headset_arctis_1_fetch_battery 64 io_stalled = (ret, evs) /\
    (ret < 0 <-> raw_request_ret io_stalled < 2).
Proof.
  split; [reflexivity|].
  split; [reflexivity|].
  split; [unfold INT_MIN, INT_MAX; simpl; lia|].
  destruct (fetch_battery_transfer 64 (or_intror eq_refl) arctis_1_headset
              io_stalled) as (ret & evs & Hrun & _ & Hret & _).
  - reflexivity.
  - reflexivity.
  - unfold INT_MIN, INT_MAX; simpl; lia.
  - exists ret, evs. split; assumption.
Defined.

(** C9 as stated fails: the state allocation, the parse and the start
    succeed and the allocation of the battery name fails; the probe returns
    0, not -ENOMEM, and the device stays attached. *)
Lemma probe_survives_name_allocation_failure :
  devm_kzalloc_ok io_no_name = true /\
  devm_kasprintf_ok io_no_name = false /\
  In (ev_devm_kasprintf battery_name_fmt 0)
     (snd (steelseries_headset_probe 64 0 io_no_name STEELSERIES_ARCTIS_1)) /\
  fst (fst (fst (steelseries_headset_probe 64 0 io_no_name
                   STEELSERIES_ARCTIS_1))) = 0 /\
  fst (fst (fst (steelseries_headset_probe 64 0 io_no_name
                   STEELSERIES_ARCTIS_1))) <> - ENOMEM /\
  snd (fst (fst (steelseries_headset_probe 64 0 io_no_name
                   STEELSERIES_ARCTIS_1))) <> None.
Proof.
  split; [reflexivity|].
  split; [reflexivity|].
  split; [vm_compute; auto 6|].
  split; [reflexivity|].
  split; vm_compute; discriminate.
Qed.

Lemma probe_allocation_failures_witness :
  devm_kzalloc_ok io_no_state = false /\
  steelseries_headset_probe 64 7 io_no_state STEELSERIES_ARCTIS_1
  = (- ENOMEM, None, 7, [ev_devm_kzalloc]).
Proof.
  split; [reflexivity|].
  apply (proj1 (proj2 (probe_allocation_failures 64 7 io_no_state
                         STEELSERIES_ARCTIS_1))).
  reflexivity.
Defined.

Lemma non_arctis_report_only_rearms_witness :
  has_quirk plain_headset STEELSERIES_ARCTIS_1 = false /\
  exists headset',
    steelseries_headset_raw_event msecs_to_jiffies_hz1000 0 plain_headset
      report_short 7
      = Some (0, headset',
              arm_calls msecs_to_jiffies_hz1000 (removed plain_headset)) /\
    headset_connected headset' = headset_connected plain_headset /\
    battery_capacity headset' = battery_capacity plain_headset /\
    filter is_notification
      (arm_calls msecs_to_jiffies_hz1000 (removed plain_headset)) = [] /\
    rearm_attempted msecs_to_jiffies_hz1000 0 plain_headset
      (steelseries_headset_raw_event msecs_to_jiffies_hz1000 0 plain_headset
         report_short 7).
Proof.
  split; [reflexivity|].
  apply (non_arctis_report_only_rearms msecs_to_jiffies_hz1000 0
           plain_headset report_short 7).
  reflexivity.
Defined.

Lemma repeated_report_is_silent_witness :
  report_ok report_present_77 8 /\
  exists headset1 evs1 headset2 evs2,
    steelseries_headset_raw_event msecs_to_jiffies_hz1000 0 arctis_1_headset
      report_present_77 8 = Some (0, headset1, evs1) /\
    steelseries_headset_raw_event msecs_to_jiffies_hz1000 3000 headset1
      report_present_77 8 = Some (0, headset2, evs2) /\
    headset_connected headset2 = headset_connected headset1 /\
    battery_capacity headset2 = battery_capacity headset1 /\
    filter is_notification evs2 = [].
Proof.
  split; [unfold report_ok; simpl; lia|].
  apply (repeated_report_is_silent msecs_to_jiffies_hz1000 0 3000
           arctis_1_headset report_present_77 8).
  unfold report_ok; simpl; lia.
Defined.

Lemma wireless_status_never_repeats_witness :
  statuses (trace fresh_world) = [] /\
  Forall op_ok sample_ops /\
  exists w',
    run 64 msecs_to_jiffies_hz1000 fresh_world sample_ops = Some w' /\
    alternates (statuses (trace w')) /\
    last (statuses (trace w'))
         (wireless_status_of (headset_connected (dev w')))
      = wireless_status_of (headset_connected (dev w')) /\
    ~ In USB_WIRELESS_STATUS_NA (statuses (trace w')).
Proof.
  split; [reflexivity|].
  split; [exact sample_ops_ok|].
  apply (wireless_status_never_repeats 64 msecs_to_jiffies_hz1000
           fresh_world sample_ops).
  - reflexivity.
  - exact sample_ops_ok.
Defined.

Lemma battery_capacity_provenance_witness :
  Forall op_ok sample_ops /\
  exists w',
    run 64 msecs_to_jiffies_hz1000 fresh_world sample_ops = Some w' /\
    (battery_capacity (dev w') = battery_capacity (dev fresh_world) \/
     battery_capacity (dev w') = 100 \/
     exists read_buf size b3,
       In (op_raw_event read_buf size) sample_ops /\
       nth_error read_buf 3 = Some b3 /\
       battery_capacity (dev w') = u8 b3) /\
    (0 <= battery_capacity (dev fresh_world) < 256 ->
     0 <= battery_capacity (dev w') < 256).
Proof.
  split; [exact sample_ops_ok|].
  apply (battery_capacity_provenance 64 msecs_to_jiffies_hz1000 fresh_world
           sample_ops).
  exact sample_ops_ok.
Defined.

Lemma removed_only_by_remove_witness :
  Forall op_ok sample_ops /\
  exists w',
    run 64 msecs_to_jiffies_hz1000 fresh_world sample_ops = Some w' /\
    quirks (dev w') = quirks (dev fresh_world) /\
    (removed (dev w') = true
     <-> removed (dev fresh_world) = true \/ In op_remove sample_ops).
Proof.
  split; [exact sample_ops_ok|].
  apply (removed_only_by_remove 64 msecs_to_jiffies_hz1000 fresh_world
           sample_ops).
  exact sample_ops_ok.
Defined.

Lemma battery_names_unique_witness :
  0 <= 0 /\
  0 + Z.of_nat (List.length three_devices) <= INT_MAX /\
  NoDup (battery_names (probe_many 64 0 three_devices)) /\
  Forall (fun n => 0 <= n) (battery_names (probe_many 64 0 three_devices)).
Proof.
  split; [lia|].
  split; [unfold INT_MAX; simpl; lia|].
  apply (battery_names_unique 64 0 three_devices).
  - lia.
  - unfold INT_MAX; simpl; lia.
Defined.

Lemma probed_device_quiet_while_absent_witness :
  devm_kzalloc_ok io_all_good = true /\
  IS_ERR (devm_power_supply_register_ret io_all_good) = false /\
  exists evs,
    steelseries_headset_probe 64 0 io_all_good STEELSERIES_ARCTIS_1
    = (0, Some arctis_1_headset, 1, evs).
Proof.
  split; [reflexivity|].
  split; [reflexivity|].
  destruct (probed_device_quiet_while_absent 64 msecs_to_jiffies_hz1000 0
              io_all_good STEELSERIES_ARCTIS_1)
    as (evs & Hprobe & _); try reflexivity.
  exists evs. exact Hprobe.
Defined.

Lemma unregistered_battery_is_notified_witness :
  devm_kasprintf_ok io_no_name = false /\
  Z.land STEELSERIES_ARCTIS_1 STEELSERIES_ARCTIS_1 <> 0 /\
  exists headset evs headset' evs',
    steelseries_headset_probe 64 0 io_no_name STEELSERIES_ARCTIS_1
      = (0, Some headset, 0 + 1, evs) /\
    battery headset = NULL /\ battery_capacity headset = 0 /\
    steelseries_headset_raw_event msecs_to_jiffies_hz1000 0 headset
      report_absent 8 = Some (0, headset', evs') /\
    In ev_power_supply_changed evs' /\
    battery headset' = NULL /\ battery_capacity headset' = 100.
Proof.
  split; [reflexivity|].
  split; [vm_compute; discriminate|].
  apply (unregistered_battery_is_notified 64 msecs_to_jiffies_hz1000 0
           io_no_name STEELSERIES_ARCTIS_1 0 report_absent 8 x01).
  - reflexivity.
  - reflexivity.
  - reflexivity.
  - reflexivity.
  - vm_compute; discriminate.
  - lia.
  - reflexivity.
  - reflexivity.
Defined.

Lemma get_property_after_report_witness :
  has_quirk arctis_1_headset STEELSERIES_ARCTIS_1 = true /\
  exists headset' evs,
    steelseries_headset_raw_event msecs_to_jiffies_hz1000 0 arctis_1_headset
      report_present_77 8 = Some (0, headset', evs) /\
    steelseries_headset_battery_get_property 0 2 2 headset'
      POWER_SUPPLY_PROP_CAPACITY 0 = (0, 77) /\
    steelseries_headset_battery_get_property 0 2 2 headset'
      POWER_SUPPLY_PROP_STATUS 0 = (0, 2).
Proof.
  split; [reflexivity|].
  apply (get_property_after_report msecs_to_jiffies_hz1000 0 2 2 0
           arctis_1_headset report_present_77 8 x00 x4d 0).
  - reflexivity.
  - lia.
  - reflexivity.
  - reflexivity.
Defined.

Lemma fetch_battery_error_codes_witness :
  kmemdup_ok io_one_byte = true /\
  INT_MIN <= raw_request_ret io_one_byte <= INT_MAX /\
  exists ret evs,
    steelseries_headset_arctis_1_fetch_battery 64 io_one_byte = (ret, evs) /\
    ret = - ENODATA.
Proof.
  split; [reflexivity|].
  split; [unfold INT_MIN, INT_MAX; simpl; lia|].
  destruct (fetch_battery_error_codes 64 (or_intror eq_refl) io_one_byte)
    as (ret & evs & Hrun & Hshort & _).
  - reflexivity.
  - unfold INT_MIN, INT_MAX; simpl; lia.
  - exists ret, evs. split; [exact Hrun|].
    apply Hshort. simpl; lia.
Defined.

Lemma removed_gates_only_arming_witness :
  exists headset' evs headset'' evs'',
    steelseries_headset_raw_event msecs_to_jiffies_hz1000 0 arctis_1_headset
      report_present_77 8 = Some (0, headset', evs) /\
    steelseries_headset_raw_event msecs_to_jiffies_hz1000 0
      (set_removed true arctis_1_headset) report_present_77 8
      = Some (0, headset'', evs'') /\
    headset_connected headset'' = headset_connected headset' /\
    battery_capacity headset'' = battery_capacity headset' /\
    filter is_notification evs'' = filter is_notification evs /\
    battery_work headset'' = battery_work arctis_1_headset /\
    filter is_schedule evs'' = [].
Proof.
  assert (Hrun : exists headset' evs,
             steelseries_headset_raw_event msecs_to_jiffies_hz1000 0
               arctis_1_headset report_present_77 8
             = Some (0, headset', evs))
    by (eexists _, _; reflexivity).
  destruct Hrun as (h' & evs & Hrun).
  destruct (removed_gates_only_arming msecs_to_jiffies_hz1000 0
              arctis_1_headset report_present_77 8 0 h' evs Hrun)
    as (h'' & e'' & H).
  exists h', evs, h'', e''. split; [exact Hrun | exact H].
Defined.

Lemma raw_event_writes_only_tracked_fields_witness :
  report_ok report_present_77 8 /\
  exists headset' evs,
    steelseries_headset_raw_event msecs_to_jiffies_hz1000 0 arctis_1_headset
      report_present_77 8 = Some (0, headset', evs) /\
    quirks headset' = quirks arctis_1_headset /\
    removed headset' = removed arctis_1_headset /\
    battery headset' = battery arctis_1_headset /\
    battery_desc_name headset' = battery_desc_name arctis_1_headset.
Proof.
  split; [unfold report_ok; simpl; lia|].
  apply (raw_event_writes_only_tracked_fields msecs_to_jiffies_hz1000 0
           arctis_1_headset report_present_77 8).
  unfold report_ok; simpl; lia.
Defined.

Lemma probe_registers_iff_started_witness :
  INT_MIN <= 0 < INT_MAX /\
  let '(ret, drvdata, battery_no', evs) :=
    steelseries_headset_probe 64 0 io_all_good STEELSERIES_ARCTIS_1 in
  (ret = 0 <-> devm_kzalloc_ok io_all_good = true /\
               hid_parse_ret io_all_good = 0 /\
               hid_hw_start_ret io_all_good = 0) /\
  (filter is_name_allocation evs <> [] <-> ret = 0) /\
  battery_no' = (if ret =? 0 then 0 + 1 else 0) /\
  (filter is_raw_request evs <> [] -> ret = 0) /\
  (drvdata = None <-> devm_kzalloc_ok io_all_good = false).
Proof.
  split; [unfold INT_MIN, INT_MAX; simpl; lia|].
  apply (probe_registers_iff_started 64 0 io_all_good STEELSERIES_ARCTIS_1).
  unfold INT_MIN, INT_MAX; simpl; lia.
Defined.
